(** * Verification of the IMDB dashboard script [submission.py]

    The script is a flat pandas / plotly / dash program.  This development
    embeds it as Rocq functions:

    - columns are typed series ([int64], [float64], [object]) and a
      [DataFrame] is an index of row labels with an ordered list of named
      columns, as in pandas;
    - the library calls the script makes ([Series.replace] with
      [regex=True], [Series.str.replace], [astype(float, errors='ignore')],
      [pd.to_numeric(errors='coerce')], [dropna], [value_counts], [isin],
      [px.bar], [update_traces], [update_layout]) are given the meaning
      their documentation gives them;
    - every statement that can raise is a step of an error monad, and the
      function called by the dash callback threads the module globals
      explicitly.

    Numbers.  An [int64] is a [Z] with the wrap-around of numpy written
    out.  A finite [float64] is carried as the exact rational it denotes:
    rounding to binary64 is not modelled, so statements about floats are
    only made below [2^53] in magnitude, where the operations used here
    are exact. *)

From Stdlib Require Import ZArith QArith Qround Qabs Lia Bool List Sorted.
From Stdlib Require Import Ascii String.
From stdpp Require Import base option gmap strings.
Import ListNotations.

Local Open Scope string_scope.
Local Open Scope Z_scope.

(** ** Errors *)

Inductive pyerr :=
| KeyError (key : string)       (* missing column *)
| AttributeError                (* [.str] on a non-text column *)
| TypeError                     (* arithmetic on text *)
| ReError                       (* pattern the model does not compile *)
| ValueError (col : string)     (* plotly: not the name of a column *)
| IndexError                    (* list index out of range *)
| LibraryError.                 (* raised inside a rendering call *)

Inductive result (A : Type) :=
| Ok (a : A)
| Err (e : pyerr).
Arguments Ok {A} a.
Arguments Err {A} e.

(** Statements are sequenced with stdpp's monad notation [x ← m; k]: the
    first error raised ends the run. *)
#[global] Instance result_ret : MRet result := fun A a => Ok a.
#[global] Instance result_bind : MBind result := fun A B k m =>
  match m with
  | Ok a => k a
  | Err e => Err e
  end.

#[global] Instance result_fmap : FMap result := fun A B f r =>
  match r with
  | Ok a => Ok (f a)
  | Err e => Err e
  end.

(** ** Text *)

Module Text.

Definition chars := list ascii.

Definition newline : ascii := ascii_of_nat 10.

(** The compiled form of the one-character patterns the script uses.
    Under [regex=True] the pattern is handed to [re.compile]: an ordinary
    character is a literal, while [$] is the end-of-string anchor. *)
Inductive regex :=
| RLit (c : ascii)
| REnd.

Definition is_meta (c : ascii) : bool :=
  existsb (Ascii.eqb c)
    (list_ascii_of_string ".^$*+?{}[]\|()").

Definition re_compile (p : string) : option regex :=
  match p with
  | String c EmptyString =>
      if Ascii.eqb c "$" then Some REnd
      else if is_meta c then None
      else Some (RLit c)
  | _ => None
  end.

(** [re.sub] for a literal: every occurrence is replaced. *)
Fixpoint sub_lit (c : ascii) (repl : chars) (s : chars) : chars :=
  match s with
  | [] => []
  | x :: r => if Ascii.eqb x c then (repl ++ sub_lit c repl r)%list
              else x :: sub_lit c repl r
  end.

(** [re.sub] for [$]: the empty match at the end of the string, and the
    one just before a final newline, receive the replacement. *)
Fixpoint sub_end (repl : chars) (s : chars) : chars :=
  match s with
  | [] => repl
  | [x] => if Ascii.eqb x newline then (repl ++ x :: repl)%list else x :: repl
  | x :: r => x :: sub_end repl r
  end.

Definition re_sub (r : regex) (repl : string) (s : string) : string :=
  let repl := list_ascii_of_string repl in
  let s := list_ascii_of_string s in
  string_of_list_ascii
    match r with
    | RLit c => sub_lit c repl s
    | REnd => sub_end repl s
    end.

Fixpoint starts_with (p s : chars) : bool :=
  match p, s with
  | [], _ => true
  | a :: p', b :: s' => Ascii.eqb a b && starts_with p' s'
  | _ :: _, [] => false
  end.

(** [str.replace old new] for a non-empty [old]: occurrences are replaced
    left to right without overlap; [skip] counts the characters of a match
    still to be passed over. *)
Fixpoint replace_from (old new : chars) (skip : nat) (s : chars) : chars :=
  match s with
  | [] => []
  | x :: r =>
      match skip with
      | S k => replace_from old new k r
      | O => if starts_with old s
             then (new ++ replace_from old new (List.length old - 1) r)%list
             else x :: replace_from old new 0 r
      end
  end.

Definition str_replace (old new s : string) : string :=
  string_of_list_ascii
    (replace_from (list_ascii_of_string old) (list_ascii_of_string new) 0
       (list_ascii_of_string s)).

End Text.

(** ** Numbers *)

Module Numeric.
Import Text.

Inductive float64 :=
| FNum (q : Q)          (* a finite value, kept exact; one zero *)
| FInf (neg : bool)
| FNaN.

Definition wrap64 (z : Z) : Z := (z + 2 ^ 63) mod 2 ^ 64 - 2 ^ 63.

Definition in_int64 (z : Z) : bool := (- 2 ^ 63 <=? z) && (z <? 2 ^ 63).

(** What a numeric literal denotes: an integer literal stays an integer
    for [pd.to_numeric]; [float()] turns it into a float. *)
Inductive number :=
| NInt (z : Z)
| NFloat (f : float64).

Definition is_space (c : ascii) : bool :=
  let n := nat_of_ascii c in
  ((9 <=? n)%nat && (n <=? 13)%nat) || ((28 <=? n)%nat && (n <=? 32)%nat).

Fixpoint lstrip (l : chars) : chars :=
  match l with
  | c :: r => if is_space c then lstrip r else l
  | [] => []
  end.

Definition strip (l : chars) : chars := rev (lstrip (rev (lstrip l))).

Definition digit_val (c : ascii) : option Z :=
  let n := nat_of_ascii c in
  if (48 <=? n)%nat && (n <=? 57)%nat then Some (Z.of_nat n - 48) else None.

Definition lower (c : ascii) : ascii :=
  let n := nat_of_ascii c in
  if (65 <=? n)%nat && (n <=? 90)%nat then ascii_of_nat (n + 32) else c.

(** A run of digits; with [us] a single underscore may stand between two
    digits, as [float()] allows.  Returns the value read, the number of
    digits and the rest of the input. *)
Fixpoint digitpart (us seen : bool) (v : Z) (n : nat) (l : chars)
  : Z * nat * chars :=
  match l with
  | [] => (v, n, [])
  | c :: r =>
      match digit_val c with
      | Some d => digitpart us true (10 * v + d) (S n) r
      | None =>
          if us && seen && Ascii.eqb c "_" then
            match r with
            | c2 :: r2 =>
                match digit_val c2 with
                | Some d2 => digitpart us true (10 * v + d2) (S n) r2
                | None => (v, n, l)
                end
            | [] => (v, n, l)
            end
          else (v, n, l)
      end
  end.

Definition parse_sign (l : chars) : bool * chars :=
  match l with
  | c :: r => if Ascii.eqb c "-" then (true, r)
              else if Ascii.eqb c "+" then (false, r)
              else (false, l)
  | [] => (false, l)
  end.

Definition chars_eqb (a b : chars) : bool :=
  String.eqb (string_of_list_ascii a) (string_of_list_ascii b).

(** The exponent part: nothing, or [e]/[E], an optional sign and digits.
    [None] when input is left over. *)
Definition parse_exp (us : bool) (l : chars) : option (Z * bool) :=
  match l with
  | [] => Some (0, false)
  | c :: r =>
      if Ascii.eqb (lower c) "e" then
        let '(neg, r1) := parse_sign r in
        match digitpart us false 0 0 r1 with
        | (_, O, _) => None
        | (v, S _, []) => Some (if neg then - v else v, true)
        | (_, S _, _ :: _) => None
        end
      else None
  end.

Definition pow10 (e : Z) : Q :=
  if 0 <=? e then inject_Z (10 ^ e) else 1 # Z.to_pos (10 ^ (- e)).

Definition parse_number (us : bool) (s : string) : option number :=
  let l := strip (list_ascii_of_string s) in
  let '(neg, l) := parse_sign l in
  let low := List.map lower l in
  if chars_eqb low (list_ascii_of_string "inf")
     || chars_eqb low (list_ascii_of_string "infinity")
  then Some (NFloat (FInf neg))
  else if chars_eqb low (list_ascii_of_string "nan") then Some (NFloat FNaN)
  else
    let '(ip, n1, r1) := digitpart us false 0 0 l in
    let '(fp, n2, r2, dot) :=
      match r1 with
      | c :: r =>
          if Ascii.eqb c "." then
            let '(fp, n2, r2) := digitpart us false 0 0 r in (fp, n2, r2, true)
          else (0, O, r1, false)
      | [] => (0, O, r1, false)
      end in
    if (n1 + n2 =? 0)%nat then None
    else
      match parse_exp us r2 with
      | None => None
      | Some (ex, hasexp) =>
          let m := ip * 10 ^ Z.of_nat n2 + fp in
          let m := if neg then - m else m in
          if dot || hasexp
          then Some (NFloat (FNum (Qred (inject_Z m * pow10 (ex - Z.of_nat n2)))))
          else Some (NInt m)
      end.

(** Python's [float(s)]. *)
Definition py_float (s : string) : option float64 :=
  match parse_number true s with
  | Some (NInt z) => Some (FNum (inject_Z z))
  | Some (NFloat f) => Some f
  | None => None
  end.

(** The per-value parse of [pd.to_numeric]: no underscores. *)
Definition to_numeric_str (s : string) : option number := parse_number false s.

Definition float_of_number (x : number) : float64 :=
  match x with
  | NInt z => FNum (inject_Z z)
  | NFloat f => f
  end.

(** [x // d] for a positive integer [d], and [x * k] for an integer [k]:
    floor division is not a number on an infinity. *)
Definition float_floordiv (x : float64) (d : positive) : float64 :=
  match x with
  | FNum q => FNum (inject_Z (Qfloor (q / inject_Z (Z.pos d))))
  | FInf _ => FNaN
  | FNaN => FNaN
  end.

Definition float_mul (x : float64) (k : Z) : float64 :=
  match x with
  | FNum q => FNum (q * inject_Z k)
  | FInf neg => if k =? 0 then FNaN else FInf (xorb neg (k <? 0))
  | FNaN => FNaN
  end.

End Numeric.

(** ** Series and data frames *)

Module Pandas.
Import Text Numeric.

(** A column with its dtype.  A text column read from a file holds
    strings and missing values. *)
Inductive series :=
| SInt (xs : list Z)                   (* int64 *)
| SFloat (xs : list float64)           (* float64 *)
| SObj (xs : list (option string)).    (* object: str, or NaN for missing *)

(** One value of a column, as Python sees it. *)
Inductive cell :=
| CInt (z : Z)
| CFloat (f : float64)
| CStr (s : string).

Definition obj_cell (o : option string) : cell :=
  match o with
  | Some s => CStr s
  | None => CFloat FNaN
  end.

Definition cells (s : series) : list cell :=
  match s with
  | SInt xs => List.map CInt xs
  | SFloat xs => List.map CFloat xs
  | SObj xs => List.map obj_cell xs
  end.

Definition isnull (c : cell) : bool :=
  match c with
  | CFloat FNaN => true
  | _ => false
  end.

Definition notnull (c : cell) : bool := negb (isnull c).

Definition float_eqb (x y : float64) : bool :=
  match x, y with
  | FNum p, FNum q => Qeq_bool p q
  | FInf a, FInf b => Bool.eqb a b
  | _, _ => false
  end.

(** Python's [==] on two values: NaN equals nothing, a string never equals
    a number. *)
Definition cell_eqb (a b : cell) : bool :=
  match a, b with
  | CInt x, CInt y => x =? y
  | CStr x, CStr y => String.eqb x y
  | CFloat x, CFloat y => float_eqb x y
  | CInt x, CFloat y => float_eqb (FNum (inject_Z x)) y
  | CFloat x, CInt y => float_eqb x (FNum (inject_Z y))
  | _, _ => false
  end.

(** Boolean indexing: the entries whose mask bit is set. *)
Fixpoint take_mask {A} (m : list bool) (l : list A) : list A :=
  match m, l with
  | b :: m', x :: l' => if b then x :: take_mask m' l' else take_mask m' l'
  | _, _ => []
  end.

Definition series_take (m : list bool) (s : series) : series :=
  match s with
  | SInt xs => SInt (take_mask m xs)
  | SFloat xs => SFloat (take_mask m xs)
  | SObj xs => SObj (take_mask m xs)
  end.

(** Row labels and the named columns, in column order. *)
Record DataFrame := {
  index : list nat;
  columns : list (string * series)
}.

Fixpoint lookup_col (name : string) (cols : list (string * series))
  : option series :=
  match cols with
  | [] => None
  | (n, s) :: r => if String.eqb n name then Some s else lookup_col name r
  end.

(** [df[name]] *)
Definition get_col (df : DataFrame) (name : string) : result series :=
  match lookup_col name (columns df) with
  | Some s => Ok s
  | None => Err (KeyError name)
  end.

Fixpoint assign_col (name : string) (s : series)
  (cols : list (string * series)) : list (string * series) :=
  match cols with
  | [] => [(name, s)]
  | (n, s0) :: r => if String.eqb n name then (n, s) :: r
                    else (n, s0) :: assign_col name s r
  end.

(** [df[name] = s]: replaces the column, or appends a new one. *)
Definition set_col (df : DataFrame) (name : string) (s : series) : DataFrame :=
  {| index := index df; columns := assign_col name s (columns df) |}.

(** [df[mask]] *)
Definition take (m : list bool) (df : DataFrame) : DataFrame :=
  {| index := take_mask m (index df);
     columns := List.map (fun c => (fst c, series_take m (snd c))) (columns df) |}.

Fixpoint zip_and (a b : list bool) : list bool :=
  match a, b with
  | x :: a', y :: b' => (x && y) :: zip_and a' b'
  | _, _ => []
  end.

Fixpoint notnull_mask (subset : list string) (df : DataFrame)
  : result (list bool) :=
  match subset with
  | [] => Ok (List.map (fun _ => true) (index df))
  | c :: r =>
      s ← get_col df c;
      m ← notnull_mask r df;
      Ok (zip_and (List.map notnull (cells s)) m)
  end.

(** [df.dropna(subset=...)]: a row stays when none of its [subset] cells
    is missing. *)
Definition dropna (subset : list string) (df : DataFrame) : result DataFrame :=
  m ← notnull_mask subset df;
  Ok (take m df).

(** [s.replace(pat, repl, regex=True)]: strings are rewritten with
    [re.sub]; other values are left alone. *)
Definition replace_regex (pat repl : string) (s : series) : result series :=
  match re_compile pat with
  | None => Err ReError
  | Some r =>
      Ok match s with
         | SObj xs => SObj (List.map (option_map (re_sub r repl)) xs)
         | _ => s
         end
  end.

(** [s.str.replace(old, new)]: the accessor exists on text columns only. *)
Definition str_replace (old new : string) (s : series) : result series :=
  match s with
  | SObj xs => Ok (SObj (List.map (option_map (Text.str_replace old new)) xs))
  | _ => Err AttributeError
  end.

Definition float_of_obj (o : option string) : option float64 :=
  match o with
  | Some s => py_float s
  | None => Some FNaN
  end.

Fixpoint all_floats (xs : list (option string)) : option (list float64) :=
  match xs with
  | [] => Some []
  | x :: r =>
      match float_of_obj x, all_floats r with
      | Some f, Some fs => Some (f :: fs)
      | _, _ => None
      end
  end.

(** [s.astype(float, errors='ignore')]: the column is converted as a
    whole; when one value does not convert, the original column is
    returned. *)
Definition astype_float_ignore (s : series) : series :=
  match s with
  | SInt xs => SFloat (List.map (fun z => FNum (inject_Z z)) xs)
  | SFloat _ => s
  | SObj xs =>
      match all_floats xs with
      | Some fs => SFloat fs
      | None => s
      end
  end.

Definition coerce (o : option string) : option number :=
  match o with
  | Some s => to_numeric_str s
  | None => None
  end.

Fixpoint all_ints (ns : list (option number)) : option (list Z) :=
  match ns with
  | [] => Some []
  | Some (NInt z) :: r =>
      if in_int64 z then
        match all_ints r with
        | Some zs => Some (z :: zs)
        | None => None
        end
      else None
  | _ :: _ => None
  end.

Definition float_or_nan (n : option number) : float64 :=
  match n with
  | Some x => float_of_number x
  | None => FNaN
  end.

(** [pd.to_numeric(s, errors='coerce')]: numeric columns pass through; in
    a text column each value is parsed and a failure becomes NaN; the
    result is int64 when every value is an int64 literal, float64
    otherwise. *)
Definition to_numeric_coerce (s : series) : series :=
  match s with
  | SObj xs =>
      let ns := List.map coerce xs in
      match all_ints ns with
      | Some zs => SInt zs
      | None => SFloat (List.map float_or_nan ns)
      end
  | _ => s
  end.

Definition is_missing (o : option string) : bool :=
  match o with None => true | Some _ => false end.

(** [s // d] for a positive [d]. *)
Definition floordiv (s : series) (d : positive) : result series :=
  match s with
  | SInt xs => Ok (SInt (List.map (fun x => x / Z.pos d) xs))
  | SFloat xs => Ok (SFloat (List.map (fun x => float_floordiv x d) xs))
  | SObj xs => if forallb is_missing xs then Ok s else Err TypeError
  end.

Definition str_repeat (k : Z) (s : string) : string :=
  String.concat "" (List.repeat s (Z.to_nat k)).

(** [s * k]: int64 wraps around; a string is repeated. *)
Definition mul (s : series) (k : Z) : series :=
  match s with
  | SInt xs => SInt (List.map (fun x => wrap64 (x * k)) xs)
  | SFloat xs => SFloat (List.map (fun x => float_mul x k) xs)
  | SObj xs => SObj (List.map (option_map (str_repeat k)) xs)
  end.

(** [s == v] against a scalar; [None] compares unequal to every value. *)
Definition eq_scalar (s : series) (v : option cell) : list bool :=
  match v with
  | Some c => List.map (fun x => cell_eqb x c) (cells s)
  | None => List.map (fun _ => false) (cells s)
  end.

(** [s.isin(values)]: membership by hash lookup, where NaN finds NaN. *)
Definition isin_eqb (a b : cell) : bool :=
  (isnull a && isnull b) || cell_eqb a b.

Definition isin (s : series) (values : list cell) : list bool :=
  List.map (fun x => existsb (isin_eqb x) values) (cells s).

(** [s.value_counts()]: missing values are left out, each distinct value
    is paired with its number of rows, and the pairs are sorted by
    decreasing count.  pandas leaves the order among equal counts open;
    here equal counts keep their order of first appearance. *)
Definition count_key (k : cell) (l : list cell) : nat :=
  List.length (List.filter (cell_eqb k) l).

Fixpoint uniq (l : list cell) : list cell :=
  match l with
  | [] => []
  | x :: r => x :: List.filter (fun y => negb (cell_eqb x y)) (uniq r)
  end.

Fixpoint insert_desc (p : cell * nat) (l : list (cell * nat))
  : list (cell * nat) :=
  match l with
  | [] => [p]
  | q :: r => if (snd q <=? snd p)%nat then p :: l else q :: insert_desc p r
  end.

Definition sort_desc (l : list (cell * nat)) : list (cell * nat) :=
  List.fold_right insert_desc [] l.

Definition value_counts (s : series) : list (cell * nat) :=
  let present := List.filter notnull (cells s) in
  sort_desc (List.map (fun k => (k, count_key k present)) (uniq present)).

(** The fields [read_csv] takes for a missing value by default. *)
Definition na_values : list string :=
  [ ""; "#N/A"; "#N/A N/A"; "#NA"; "-1.#IND"; "-1.#QNAN"; "-NaN"; "-nan";
    "1.#IND"; "1.#QNAN"; "<NA>"; "N/A"; "NA"; "NULL"; "NaN"; "None"; "n/a";
    "nan"; "null" ].

(** A column of the file that [read_csv] keeps as text (some field of it
    is neither a number nor missing), from its fields. *)
Definition read_text (fields : list string) : series :=
  SObj (List.map (fun s => if existsb (String.eqb s) na_values then None
                           else Some s) fields).

(** The cells of two columns side by side with their row label. *)
Definition rows2 (df : DataFrame) (a b : string) : list (nat * (cell * cell)) :=
  match lookup_col a (columns df), lookup_col b (columns df) with
  | Some sa, Some sb => combine (index df) (combine (cells sa) (cells sb))
  | _, _ => []
  end.

Definition rows1 (df : DataFrame) (a : string) : list (nat * cell) :=
  match lookup_col a (columns df) with
  | Some sa => combine (index df) (cells sa)
  | None => []
  end.

End Pandas.

(** ** Chart descriptions *)

Module Plotly.
Import Numeric Pandas.

(** A piece of text; [Format p v] is the f-string [f"p{v}"], kept
    unformatted. *)
Inductive text :=
| Plain (s : string)
| Format (prefix : string) (v : option cell).

Record Trace := {
  tr_x : list cell;
  tr_y : list cell;
  tr_hover : list (list cell);               (* one list per hover column *)
  tr_marker_color : option string;
  tr_marker_line : option (Q * string)       (* width, color *)
}.

Record Layout := {
  title_text : option text;
  xaxis_title : option string;
  yaxis_title : option string;
  title_font_size : option Z;
  title_x : option Q;
  paper_bgcolor : option string;
  plot_bgcolor : option string;
  font_color : option string;
  margin : option (Z * Z * Z * Z);           (* t, b, l, r *)
  height : option Z
}.

Record Figure := {
  fig_data : list Trace;
  fig_layout : Layout
}.

(** plotly express checks every column argument against the frame. *)
Definition plot_col (df : DataFrame) (name : string) : result series :=
  match lookup_col name (columns df) with
  | Some s => Ok s
  | None => Err (ValueError name)
  end.

Fixpoint plot_cols (df : DataFrame) (names : list string)
  : result (list series) :=
  match names with
  | [] => Ok []
  | n :: r => s ← plot_col df n; ss ← plot_cols df r; Ok (s :: ss)
  end.

Definition label_of (labels : list (string * string)) (name : string) : string :=
  match List.find (fun p => String.eqb (fst p) name) labels with
  | Some p => snd p
  | None => name
  end.

(** [px.bar(df, x=, y=, hover_data=, title=, labels=)]: with no color,
    facet or animation argument the frame is one group, drawn as a single
    bar trace over all its rows. *)
Definition px_bar (df : DataFrame) (x y : string) (hover_data : list string)
  (title : text) (labels : list (string * string)) : result Figure :=
  xs ← plot_col df x;
  ys ← plot_col df y;
  hs ← plot_cols df hover_data;
  Ok {| fig_data :=
          [ {| tr_x := cells xs; tr_y := cells ys;
               tr_hover := List.map cells hs;
               tr_marker_color := None; tr_marker_line := None |} ];
        fig_layout :=
          {| title_text := Some title;
             xaxis_title := Some (label_of labels x);
             yaxis_title := Some (label_of labels y);
             title_font_size := None; title_x := None;
             paper_bgcolor := None; plot_bgcolor := None;
             font_color := None; margin := None; height := None |} |}.

(** [fig.update_traces(marker_color=c)]: every trace of the figure. *)
Definition update_traces_marker_color (c : string) (fig : Figure) : Figure :=
  {| fig_data :=
       List.map (fun t =>
         {| tr_x := tr_x t; tr_y := tr_y t; tr_hover := tr_hover t;
            tr_marker_color := Some c; tr_marker_line := tr_marker_line t |})
         (fig_data fig);
     fig_layout := fig_layout fig |}.

(** [fig.update_traces(marker=dict(line=dict(width=w, color=c)))] *)
Definition update_traces_marker_line (w : Q) (c : string) (fig : Figure) : Figure :=
  {| fig_data :=
       List.map (fun t =>
         {| tr_x := tr_x t; tr_y := tr_y t; tr_hover := tr_hover t;
            tr_marker_color := tr_marker_color t;
            tr_marker_line := Some (w, c) |})
         (fig_data fig);
     fig_layout := fig_layout fig |}.

(** [fig.update_layout(title_font_size=, title_x=, paper_bgcolor=,
    plot_bgcolor=, font=dict(color=), height=)], with [margin=] when
    given. *)
Definition update_layout (size : Z) (x : Q) (paper plot font : string)
  (mg : option (Z * Z * Z * Z)) (h : Z) (fig : Figure) : Figure :=
  let l := fig_layout fig in
  {| fig_data := fig_data fig;
     fig_layout :=
       {| title_text := title_text l;
          xaxis_title := xaxis_title l;
          yaxis_title := yaxis_title l;
          title_font_size := Some size;
          title_x := Some x;
          paper_bgcolor := Some paper;
          plot_bgcolor := Some plot;
          font_color := Some font;
          margin := match mg with Some m => Some m | None => margin l end;
          height := Some h |} |}.

End Plotly.

(** ** The script *)

Module Submission.
Import Text Numeric Pandas Plotly.

(** Lines 11-14: the four column conversions. *)
Definition parse_columns (data : DataFrame) : result DataFrame :=
  gross ← get_col data "Gross";
  g1 ← replace_regex "," "" gross;
  g2 ← replace_regex "$" "" g1;
  let data := set_col data "Gross" (astype_float_ignore g2) in
  votes ← get_col data "No_of_Votes";
  let data := set_col data "No_of_Votes" (to_numeric_coerce votes) in
  runtime ← get_col data "Runtime";
  r1 ← Pandas.str_replace " min" "" runtime;
  let data := set_col data "Runtime" (astype_float_ignore r1) in
  year ← get_col data "Released_Year";
  Ok (set_col data "Released_Year" (to_numeric_coerce year)).

(** Line 15. *)
Definition retain (data : DataFrame) : result DataFrame :=
  dropna ["Released_Year"; "Gross"] data.

(** Line 18. *)
Definition add_decade (data : DataFrame) : result DataFrame :=
  year ← get_col data "Released_Year";
  tens ← floordiv year 10;
  Ok (set_col data "Decade" (mul tens 10)).

Definition clean (raw : DataFrame) : result DataFrame :=
  parsed ← parse_columns raw;
  kept ← retain parsed;
  add_decade kept.

(** Lines 24-35. *)
Definition genre_colors_literal : gmap string string :=
  list_to_map
    [ ("Action", "#FF5733"); ("Adventure", "#33FF57"); ("Drama", "#337BFF");
      ("Comedy", "#F39C12"); ("Horror", "#8E44AD"); ("Thriller", "#C0392B");
      ("Animation", "#1ABC9C"); ("Sci-Fi", "#9B59B6"); ("Crime", "#34495E");
      ("Romance", "#E74C3C") ].

(** [d.get(key, dflt)] on a dictionary with string keys: a key that is
    not a string finds nothing. *)
Definition dict_get (d : gmap string string) (key : option cell)
  (dflt : string) : string :=
  match key with
  | Some (CStr s) => default dflt (d !! s)
  | _ => dflt
  end.

(** Line 39: [genre_counts[genre_counts > 10].index.tolist()] *)
Definition over_threshold (genre_counts : list (cell * nat)) : list cell :=
  List.map fst (List.filter (fun p => (10 <? snd p)%nat) genre_counts).

(** The module-level names the function of the callback can see. *)
Record Globals := {
  data : DataFrame;
  genre_colors : gmap string string;
  genre_counts : list (cell * nat);
  selected_genres : list cell;
  data_filtered : DataFrame;
  treemap : Figure;
  scatterplot : Figure;
  parallel_coordinates : Figure
}.

(** Code that runs after start-up takes the globals and hands them on. *)
Definition M (A : Type) : Type := Globals -> result (A * Globals).

#[global] Instance M_ret : MRet M := fun A a G => Ok (a, G).
#[global] Instance M_bind : MBind M := fun A B k m G =>
  match m G with
  | Ok (a, G') => k a G'
  | Err e => Err e
  end.

Definition read {A} (f : Globals -> A) : M A := fun G => Ok (f G, G).

Definition lift {A} (r : result A) : M A := fun G =>
  match r with
  | Ok a => Ok (a, G)
  | Err e => Err e
  end.

Definition transparent : string := "rgba(0,0,0,0)".

(** Lines 85-113.  [selected_genre] is what the dropdown sends: one of
    its option values, or [None] when it has been cleared. *)
Definition create_facet_chart (selected_genre : option cell) : M Figure :=
  table ← read data_filtered;
  genre ← lift (get_col table "Genre");
  let filtered_data := take (eq_scalar genre selected_genre) table in
  colors ← read genre_colors;
  let selected_color := dict_get colors selected_genre "#337BFF" in
  facet_chart ← lift (px_bar filtered_data "Decade" "IMDB_Rating"
                        ["Series_Title"]
                        (Format "IMDB Rating by Decade for " selected_genre)
                        [("Decade", "Decade");
                         ("IMDB_Rating", "Average IMDB Rating")]);
  let facet_chart := update_traces_marker_color selected_color facet_chart in
  let facet_chart :=
    update_layout 18 (2 # 5) transparent transparent "white"
      (Some (40, 30, 30, 30)) 400 facet_chart in
  mret facet_chart.

(** Lines 173-178. *)
Definition update_facet_chart (selected_genre : option cell) : M Figure :=
  create_facet_chart selected_genre.

(** The page: components with the properties that carry data; style
    dictionaries are left out, and the heading keeps the escapes of the
    source unexpanded. *)
#[warnings="-register-all"]
Inductive Component :=
| H1 (children : string)
| Label (children : string)
| Div (children : list Component)
| Graph (id : option string) (figure : option Figure)
| Dropdown (id : string) (options : list (cell * cell)) (value : cell).

Record Callback := {
  cb_output : string * string;
  cb_input : string * string;
  cb_function : option cell -> M Figure
}.

Record App := {
  app_globals : Globals;
  app_layout : Component;
  app_callbacks : list Callback
}.

(** [l[0]] *)
Definition first {A} (l : list A) : result A :=
  match l with
  | x :: _ => Ok x
  | [] => Err IndexError
  end.

Fixpoint dropdowns (c : Component) : list (string * list (cell * cell) * cell) :=
  match c with
  | Div children => List.concat (List.map dropdowns children)
  | Dropdown id options value => [(id, options, value)]
  | _ => []
  end.

Section Startup.

(** What plotly draws for the three static charts is not needed below:
    each is a call that checks its column arguments and then returns a
    figure or raises. *)
Variables render_treemap render_scatter render_parallel
  : DataFrame -> result Figure.

Definition px_treemap (df : DataFrame) : result Figure :=
  _ ← plot_cols df ["Genre"; "Gross"; "No_of_Votes"];
  render_treemap df.

Definition px_scatter (df : DataFrame) : result Figure :=
  _ ← plot_cols df ["Runtime"; "IMDB_Rating"; "No_of_Votes"; "Gross";
                    "Series_Title"; "Director"; "Released_Year"];
  render_scatter df.

Definition px_parallel_coordinates (df : DataFrame) : result Figure :=
  _ ← plot_cols df ["Runtime"; "IMDB_Rating"; "Gross"; "Meta_score";
                    "No_of_Votes"];
  render_parallel df.

Definition static_layout : Figure -> Figure :=
  update_layout 22 (2 # 5) transparent transparent "white" None 400.

(** Lines 10-131: everything the module computes before the page is put
    together, for the frame [raw] read from the file. *)
Definition load (raw : DataFrame) : result Globals :=
  data ← clean raw;
  genre ← get_col data "Genre";
  let genre_counts := value_counts genre in
  let selected_genres := over_threshold genre_counts in
  let data_filtered := take (isin genre selected_genres) data in
  treemap ← px_treemap data;
  scatterplot ← px_scatter data;
  parallel_coordinates ← px_parallel_coordinates data;
  Ok {| data := data;
        genre_colors := genre_colors_literal;
        genre_counts := genre_counts;
        selected_genres := selected_genres;
        data_filtered := data_filtered;
        treemap := static_layout treemap;
        scatterplot := update_traces_marker_line (1 # 2) "white"
                         (static_layout scatterplot);
        parallel_coordinates := static_layout parallel_coordinates |}.

(** Lines 134-178: the page and the callback.  The result is the
    application [app.run_server] goes on to serve. *)
Definition build (G : Globals) : result App :=
  value ← first (selected_genres G);
  Ok {| app_globals := G;
        app_layout :=
          Div [ H1 "\ud83c\udfa5 IMDB Movie Analysis \ud83c\udfc6";
                Div [ Graph None (Some (treemap G));
                      Graph None (Some (scatterplot G)) ];
                Div [ Label " ";
                      Dropdown "genre-dropdown"
                        (List.map (fun genre => (genre, genre))
                           (selected_genres G))
                        value ];
                Div [ Graph (Some "facet-chart") None;
                      Graph None (Some (parallel_coordinates G)) ] ];
        app_callbacks :=
          [ {| cb_output := ("facet-chart", "figure");
               cb_input := ("genre-dropdown", "value");
               cb_function := update_facet_chart |} ] |}.

Definition startup (raw : DataFrame) : result App :=
  G ← load raw;
  build G.

End Startup.

End Submission.

(** * Vocabulary of the statements *)

Import Text Numeric Pandas Plotly Submission.

(** ** Cleaning *)

(** The two [replace] calls of line 11, taken together. *)
Definition gross_text (s : series) : series :=
  match s with
  | SObj xs =>
      SObj (List.map (option_map (re_sub REnd ""))
              (List.map (option_map (re_sub (RLit ",") "")) xs))
  | _ => s
  end.

(** The [str.replace] of line 13 on the values of a text column. *)
Definition runtime_text (xs : list (option string)) : list (option string) :=
  List.map (option_map (Text.str_replace " min" "")) xs.

(** A row, given as its label with its year and gross, has both. *)
Definition both_present (r : nat * (cell * cell)) : bool :=
  notnull (fst (snd r)) && notnull (snd (snd r)).

(** The mask [dropna] computes from two columns. *)
Definition mask2 (idx : list nat) (ca cb : list cell) : list bool :=
  zip_and (List.map notnull ca)
    (zip_and (List.map notnull cb) (List.map (fun _ => true) idx)).

Fixpoint count_true (m : list bool) : nat :=
  match m with
  | [] => O
  | b :: r => if b then S (count_true r) else count_true r
  end.

(** Which rows [clean] keeps, read off the raw frame: the mask is made
    from the year and gross columns alone. *)
Definition kept_labels (raw : DataFrame) (year gross : series) : list nat :=
  take_mask
    (mask2 (index raw) (cells (to_numeric_coerce year))
       (cells (astype_float_ignore (gross_text gross))))
    (index raw).

(** Line 18 on one value. *)
Definition decade_cell (y : cell) : cell :=
  match y with
  | CInt z => CInt (wrap64 (z / 10 * 10))
  | CFloat f => CFloat (float_mul (float_floordiv f 10) 10)
  | CStr s => CStr (str_repeat 10 s)
  end.

(** The years for which the arithmetic of line 18 is exact: an int64
    whose decade does not fall below the least int64, or a finite float
    below [2^53] in magnitude. *)
Definition exact_year (y : cell) : Prop :=
  match y with
  | CInt z => - 9223372036854775800 <= z < 2 ^ 63
  | CFloat (FNum q) => (Qabs q < inject_Z (2 ^ 53))%Q
  | _ => False
  end.

(** [d] is the multiple of ten [10 * k] with [10 * k <= y < 10 * k + 10],
    of the type of [y]. *)
Definition decade_of (y d : cell) : Prop :=
  exists k : Z,
    match y with
    | CInt z => 10 * k <= z < 10 * k + 10 /\ d = CInt (10 * k)
    | CFloat (FNum q) =>
        (inject_Z (10 * k) <= q)%Q /\ (q < inject_Z (10 * k + 10))%Q /\
        d = CFloat (FNum (inject_Z (10 * k)))
    | _ => False
    end.

(** ** Genres *)

(** A value up to Python's [==]: numbers by their reduced fraction. *)
Inductive key :=
| KNum (q : Q)
| KInf (neg : bool)
| KStr (s : string)
| KNaN.

Definition norm (c : cell) : key :=
  match c with
  | CInt z => KNum (Qred (inject_Z z))
  | CFloat (FNum q) => KNum (Qred q)
  | CFloat (FInf b) => KInf b
  | CFloat FNaN => KNaN
  | CStr s => KStr s
  end.

(** The order of [value_counts]: the larger count first. *)
Definition by_count (p q : cell * nat) : Prop := (snd q <= snd p)%nat.

(** ** The decade-bar chart and the page *)

(** The trace of the chart for the value [g], given the genre, decade,
    rating and title columns of the filtered table and the color table:
    the rows whose genre equals [g]. *)
Definition facet_trace (g : option cell) (colors : gmap string string)
  (genre decade rating titles : series) : Trace :=
  let m := eq_scalar genre g in
  {| tr_x := take_mask m (cells decade);
     tr_y := take_mask m (cells rating);
     tr_hover := [take_mask m (cells titles)];
     tr_marker_color := Some (dict_get colors g "#337BFF");
     tr_marker_line := None |}.

Definition facet_layout (g : option cell) : Layout :=
  {| title_text := Some (Format "IMDB Rating by Decade for " g);
     xaxis_title := Some "Decade";
     yaxis_title := Some "Average IMDB Rating";
     title_font_size := Some 18;
     title_x := Some (2 # 5);
     paper_bgcolor := Some "rgba(0,0,0,0)";
     plot_bgcolor := Some "rgba(0,0,0,0)";
     font_color := Some "white";
     margin := Some (40, 30, 30, 30);
     height := Some 400 |}.

(** [create_facet_chart] without the threading of the globals. *)
Definition facet_chart_of (g : option cell) (G : Globals) : result Figure :=
  genre ← get_col (data_filtered G) "Genre";
  chart ← px_bar (take (eq_scalar genre g) (data_filtered G))
            "Decade" "IMDB_Rating" ["Series_Title"]
            (Format "IMDB Rating by Decade for " g)
            [("Decade", "Decade"); ("IMDB_Rating", "Average IMDB Rating")];
  Ok (update_layout 18 (2 # 5) transparent transparent "white"
        (Some (40, 30, 30, 30)) 400
        (update_traces_marker_color (dict_get (genre_colors G) g "#337BFF")
           chart)).

(** The [id] of every graph of the page that has one. *)
Fixpoint graph_ids (c : Component) : list string :=
  match c with
  | Div children => List.concat (List.map graph_ids children)
  | Graph (Some id) _ => [id]
  | _ => []
  end.

(** ** Sample tables *)

Module Samples.

(** A frame of [n] rows as [read_csv] returns it, with the nine columns
    the script uses; the columns no statement below looks at hold the
    same value in every row. *)
Definition frame (n : nat) (year runtime genre gross : series) : DataFrame :=
  {| index := seq 0 n;
     columns :=
       [ ("Series_Title", SObj (List.repeat (Some "Title") n));
         ("Released_Year", year);
         ("Runtime", runtime);
         ("Genre", genre);
         ("IMDB_Rating", SFloat (List.repeat (FNum (17 # 2)) n));
         ("Meta_score", SFloat (List.repeat (FNum 80) n));
         ("Director", SObj (List.repeat (Some "Director") n));
         ("No_of_Votes", SInt (List.repeat 1000 n));
         ("Gross", gross) ] |}.

(** Four films; the third has no gross, and the fourth has the
    certificate in the year column and neither runtime nor genre. *)
Definition four_films : DataFrame :=
  frame 4
    (read_text ["1994"; "1972"; "2000"; "PG"])
    (read_text ["142 min"; "175 min"; "96 min"; ""])
    (read_text ["Drama"; "Crime"; "Drama"; ""])
    (read_text ["28,341,469"; "134,966,411"; ""; "1,000"]).

(** The two rows of the example: a gross with a currency symbol, and a
    gross of ["N/A"]. *)
Definition dollar_gross : DataFrame :=
  frame 2 (SInt [1994; 1999])
    (read_text ["142 min"; "120 min"])
    (read_text ["Drama"; "Drama"])
    (read_text ["$1,234,567"; "N/A"]).

(** Two films, one with a runtime that is not a number. *)
Definition odd_runtime : DataFrame :=
  frame 2 (SInt [1994; 1972])
    (read_text ["142 min"; "unknown"])
    (read_text ["Drama"; "Crime"])
    (read_text ["28,341,469"; "134,966,411"]).

(** One film whose year is the least int64. *)
Definition least_year : DataFrame :=
  frame 1 (SInt [- 9223372036854775808])
    (read_text ["142 min"])
    (read_text ["Drama"])
    (read_text ["1,000"]).

(** Eleven horror films and one drama. *)
Definition horror_films : DataFrame :=
  frame 12
    (SInt (List.repeat 1999 12))
    (read_text (List.repeat "142 min" 12))
    (read_text (List.repeat "Horror" 11 ++ ["Drama"])%list)
    (read_text (List.repeat "1,000" 12)).


Definition blank : Figure :=
  {| fig_data := [];
     fig_layout :=
       {| title_text := None; xaxis_title := None; yaxis_title := None;
          title_font_size := None; title_x := None; paper_bgcolor := None;
          plot_bgcolor := None; font_color := None; margin := None;
          height := None |} |}.

(** A renderer that always succeeds. *)
Definition render_blank (df : DataFrame) : result Figure := Ok blank.

Definition no_frame : DataFrame := {| index := []; columns := [] |}.

Definition no_globals : Globals :=
  {| data := no_frame; genre_colors := ∅; genre_counts := [];
     selected_genres := []; data_filtered := no_frame; treemap := blank;
     scatterplot := blank; parallel_coordinates := blank |}.

(** The cleaned table, the globals and the application for a sample. *)
Definition cleaned (raw : DataFrame) : DataFrame :=
  match clean raw with
  | Ok d => d
  | Err _ => no_frame
  end.

Definition loaded (raw : DataFrame) : Globals :=
  match load render_blank render_blank render_blank raw with
  | Ok G => G
  | Err _ => no_globals
  end.

Definition started (raw : DataFrame) : App :=
  match startup render_blank render_blank render_blank raw with
  | Ok app => app
  | Err _ =>
      {| app_globals := no_globals; app_layout := Div []; app_callbacks := [] |}
  end.

End Samples.

(** ** Further vocabulary *)

(** Every column is as long as the index. *)
Definition well_formed (df : DataFrame) : Prop :=
  Forall (fun c => List.length (cells (snd c)) = List.length (index df))
    (columns df).

(** A column of dtype int64 or float64. *)
Definition numeric (s : series) : Prop :=
  match s with
  | SObj _ => False
  | _ => True
  end.









(** No two values of the list are equal. *)
Definition distinct (l : list cell) : Prop :=
  StronglySorted (fun a b => cell_eqb a b = false) l.

(** Two entries of the counts stand for different values. *)
Definition other_key (p q : cell * nat) : Prop :=
  cell_eqb (fst p) (fst q) = false.

Definition sum_counts (l : list (cell * nat)) : nat :=
  List.list_sum (List.map snd l).

(** The layout properties every chart of the page is given. *)
Definition themed (size : Z) (l : Layout) : Prop :=
  title_font_size l = Some size /\ title_x l = Some (2 # 5) /\
  paper_bgcolor l = Some "rgba(0,0,0,0)" /\
  plot_bgcolor l = Some "rgba(0,0,0,0)" /\
  font_color l = Some "white" /\ height l = Some 400.


(** ** Further samples *)

Module MoreSamples.

(** One film in a file whose runtime column holds plain numbers, which
    [read_csv] reads as int64. *)
Definition numeric_runtime : DataFrame :=
  Samples.frame 1 (SInt [1994]) (SInt [142]) (read_text ["Drama"])
    (read_text ["1,000"]).



(** The cleaned table of [Samples.four_films], and the globals and the
    application of [Samples.horror_films]. *)
Definition four_cleaned : DataFrame := Samples.cleaned Samples.four_films.

Definition horror_globals : Globals := Samples.loaded Samples.horror_films.

Definition horror_app : App := Samples.started Samples.horror_films.

(** The frame lines 11-14 leave for a sample. *)
Definition parsed (raw : DataFrame) : DataFrame :=
  match parse_columns raw with
  | Ok d => d
  | Err _ => Samples.no_frame
  end.

End MoreSamples.

(** * Properties *)

(** ** Columns of a frame *)

Lemma lookup_assign_eq name s cols :
  lookup_col name (assign_col name s cols) = Some s.
Proof.
  induction cols as [|[n s0] r IH]; simpl.
  - now rewrite String.eqb_refl.
  - destruct (String.eqb n name) eqn:E; simpl; rewrite E; auto.
Qed.

Lemma lookup_assign_ne name other s cols :
  name <> other ->
  lookup_col other (assign_col name s cols) = lookup_col other cols.
Proof.
  intros Hne. induction cols as [|[n s0] r IH]; simpl.
  - destruct (String.eqb name other) eqn:E; auto.
    apply String.eqb_eq in E. contradiction.
  - destruct (String.eqb n name) eqn:E; simpl.
    + apply String.eqb_eq in E. subst n.
      destruct (String.eqb name other) eqn:E'; auto.
      apply String.eqb_eq in E'. contradiction.
    + now rewrite IH.
Qed.

Lemma get_col_ok df name s :
  get_col df name = Ok s <-> lookup_col name (columns df) = Some s.
Proof.
  unfold get_col. destruct (lookup_col name (columns df)); split; congruence.
Qed.

Lemma take_mask_map {A B} (f : A -> B) m l :
  take_mask m (List.map f l) = List.map f (take_mask m l).
Proof.
  revert l. induction m as [|b m IH]; intros [|x l]; simpl; auto.
  destruct b; simpl; now rewrite IH.
Qed.

Lemma cells_take m s : cells (series_take m s) = take_mask m (cells s).
Proof. destruct s; simpl; now rewrite take_mask_map. Qed.

Lemma lookup_take name m cols :
  lookup_col name (List.map (fun c => (fst c, series_take m (snd c))) cols)
  = option_map (series_take m) (lookup_col name cols).
Proof.
  induction cols as [|[n s] r IH]; simpl; auto.
  destruct (String.eqb n name); auto.
Qed.

Lemma take_mask_combine {A B} m (a : list A) (b : list B) :
  take_mask m (combine a b) = combine (take_mask m a) (take_mask m b).
Proof.
  revert a b. induction m as [|x m IH]; intros [|y a] [|z b]; simpl; auto.
  - destruct x; auto. now destruct (take_mask m a).
  - destruct x; simpl; now rewrite IH.
Qed.


(** ** Running a sequence of statements *)

Lemma bind_ok {A B} (m : result A) (k : A -> result B) b :
  mbind k m = Ok b -> exists a, m = Ok a /\ k a = Ok b.
Proof. destruct m as [a|e]; simpl; [eauto | discriminate]. Qed.

Lemma bind_Ok {A B} (a : A) (k : A -> result B) : mbind k (Ok a) = k a.
Proof. reflexivity. Qed.

Ltac inv_bind H :=
  let a := fresh "v" in
  let Ha := fresh "Hv" in
  apply bind_ok in H; destruct H as (a & Ha & H).

Lemma replace_comma s :
  replace_regex "," "" s
  = Ok match s with
       | SObj xs => SObj (List.map (option_map (re_sub (RLit ",") "")) xs)
       | _ => s
       end.
Proof. reflexivity. Qed.

Lemma replace_dollar s :
  replace_regex "$" "" s
  = Ok match s with
       | SObj xs => SObj (List.map (option_map (re_sub REnd "")) xs)
       | _ => s
       end.
Proof. reflexivity. Qed.

(** What lines 11-14 leave in the frame. *)
Lemma parse_columns_inv raw parsed :
  parse_columns raw = Ok parsed ->
  exists gross votes xs year,
    lookup_col "Gross" (columns raw) = Some gross /\
    lookup_col "No_of_Votes" (columns raw) = Some votes /\
    lookup_col "Runtime" (columns raw) = Some (SObj xs) /\
    lookup_col "Released_Year" (columns raw) = Some year /\
    parsed =
      set_col
        (set_col
           (set_col
              (set_col raw "Gross" (astype_float_ignore (gross_text gross)))
              "No_of_Votes" (to_numeric_coerce votes))
           "Runtime" (astype_float_ignore (SObj (runtime_text xs))))
        "Released_Year" (to_numeric_coerce year).
Proof.
  unfold parse_columns. intros H.
  inv_bind H. rename v into gross. apply get_col_ok in Hv.
  rewrite replace_comma, bind_Ok, replace_dollar, bind_Ok in H.
  match type of H with
  | context [astype_float_ignore ?t] =>
      replace t with (gross_text gross) in H by (destruct gross; reflexivity)
  end.
  inv_bind H. rename v into votes. apply get_col_ok in Hv0.
  inv_bind H. rename v into runtime. apply get_col_ok in Hv1.
  inv_bind H. rename v into r1.
  inv_bind H. rename v into year. apply get_col_ok in Hv3.
  injection H as <-.
  cbn [set_col columns] in Hv0, Hv1, Hv3.
  rewrite lookup_assign_ne in Hv0 by discriminate.
  do 2 rewrite lookup_assign_ne in Hv1 by discriminate.
  do 3 rewrite lookup_assign_ne in Hv3 by discriminate.
  destruct runtime as [| |xs]; try discriminate.
  injection Hv2 as <-.
  exists gross, votes, xs, year. repeat split; auto.
Qed.

Lemma parse_columns_index raw parsed :
  parse_columns raw = Ok parsed -> index parsed = index raw.
Proof.
  intros H. apply parse_columns_inv in H.
  destruct H as (? & ? & ? & ? & _ & _ & _ & _ & ->). reflexivity.
Qed.

(** ** Row retention *)

Lemma mask2_rows idx ca cb :
  take_mask (mask2 idx ca cb) (combine idx (combine ca cb))
  = List.filter both_present (combine idx (combine ca cb)).
Proof.
  unfold mask2. revert ca cb.
  induction idx as [|i idx IH]; intros [|a ca] [|b cb]; simpl; auto.
  unfold both_present at 1. simpl.
  rewrite andb_true_r. destruct (notnull a && notnull b); now rewrite IH.
Qed.

Lemma mask2_index idx ca cb :
  take_mask (mask2 idx ca cb) idx
  = List.map fst (List.filter both_present (combine idx (combine ca cb))).
Proof.
  unfold mask2. revert ca cb.
  induction idx as [|i idx IH]; intros [|a ca] [|b cb]; simpl; auto.
  unfold both_present at 1. simpl.
  rewrite andb_true_r. destruct (notnull a && notnull b); simpl; now rewrite IH.
Qed.

Lemma retain_inv parsed kept :
  retain parsed = Ok kept ->
  exists year gross,
    lookup_col "Released_Year" (columns parsed) = Some year /\
    lookup_col "Gross" (columns parsed) = Some gross /\
    kept = take (mask2 (index parsed) (cells year) (cells gross)) parsed.
Proof.
  unfold retain, dropna. intros H. inv_bind H. injection H as <-.
  simpl in Hv. inv_bind Hv. rename v0 into year. apply get_col_ok in Hv0.
  inv_bind Hv. inv_bind Hv1. rename v1 into gross. apply get_col_ok in Hv2.
  injection Hv1 as <-. injection Hv as <-.
  exists year, gross. auto.
Qed.

Lemma rows2_take m df a b :
  rows2 (take m df) a b = take_mask m (rows2 df a b).
Proof.
  unfold rows2, take. simpl. rewrite !lookup_take.
  destruct (lookup_col a (columns df)) as [sa|]; simpl.
  - destruct (lookup_col b (columns df)) as [sb|]; simpl.
    + now rewrite !cells_take, !take_mask_combine.
    + now destruct m.
  - now destruct m.
Qed.

Lemma rows2_set_col df name s a b :
  name <> a -> name <> b ->
  rows2 (set_col df name s) a b = rows2 df a b.
Proof.
  intros Ha Hb. unfold rows2, set_col. simpl.
  now rewrite !lookup_assign_ne.
Qed.

Lemma add_decade_inv kept data :
  add_decade kept = Ok data ->
  exists year tens,
    lookup_col "Released_Year" (columns kept) = Some year /\
    floordiv year 10 = Ok tens /\
    data = set_col kept "Decade" (mul tens 10).
Proof.
  unfold add_decade. intros H.
  inv_bind H. apply get_col_ok in Hv. inv_bind H. injection H as <-.
  eauto.
Qed.

Lemma clean_inv raw data :
  clean raw = Ok data ->
  exists parsed kept,
    parse_columns raw = Ok parsed /\ retain parsed = Ok kept /\
    add_decade kept = Ok data.
Proof.
  unfold clean. intros H. inv_bind H. inv_bind H. eauto.
Qed.

(** C4.  Line 15 is the one place rows are removed: the conversions
    before it keep every row, a row stays exactly when its released year
    and its gross are both non-null, and so every record of the cleaned
    table has both. *)
Theorem retention_keeps_exactly_non_null (raw data : DataFrame) :
  clean raw = Ok data ->
  exists parsed,
    parse_columns raw = Ok parsed /\
    index parsed = index raw /\
    rows2 data "Released_Year" "Gross"
      = List.filter both_present (rows2 parsed "Released_Year" "Gross") /\
    index data = List.map fst (rows2 data "Released_Year" "Gross") /\
    Forall (fun r => isnull (fst (snd r)) = false /\ isnull (snd (snd r)) = false)
      (rows2 data "Released_Year" "Gross").
Proof.
  intros H. apply clean_inv in H. destruct H as (parsed & kept & Hp & Hr & Hd).
  exists parsed. split; [exact Hp|]. split; [eapply parse_columns_index; eauto|].
  apply retain_inv in Hr. destruct Hr as (year & gross & Hy & Hg & ->).
  apply add_decade_inv in Hd. destruct Hd as (y' & tens & _ & _ & ->).
  rewrite rows2_set_col by discriminate.
  rewrite rows2_take.
  assert (Hrows : rows2 parsed "Released_Year" "Gross"
                  = combine (index parsed) (combine (cells year) (cells gross))).
  { unfold rows2. now rewrite Hy, Hg. }
  rewrite Hrows, mask2_rows.
  split; [reflexivity|]. split.
  - simpl. apply mask2_index.
  - apply List.Forall_forall. intros r Hr. apply List.filter_In in Hr.
    destruct Hr as [_ Hr]. unfold both_present, notnull in Hr.
    apply andb_true_iff in Hr. destruct Hr as [H1 H2].
    apply negb_true_iff in H1, H2. auto.
Qed.

(** ** The decade column *)

Lemma decade_cells year tens :
  floordiv year 10 = Ok tens ->
  cells (mul tens 10) = List.map decade_cell (cells year).
Proof.
  destruct year as [xs|xs|xs]; simpl.
  - intros [= <-]. simpl. rewrite !List.map_map. reflexivity.
  - intros [= <-]. simpl. rewrite !List.map_map. reflexivity.
  - destruct (forallb is_missing xs) eqn:E; [|discriminate].
    intros [= <-]. simpl. rewrite !List.map_map.
    apply List.map_ext_in. intros o Ho.
    rewrite List.forallb_forall in E. specialize (E o Ho).
    destruct o; [discriminate | reflexivity].
Qed.

Lemma two_63 : 2 ^ 63 = 9223372036854775808.
Proof. reflexivity. Qed.

Lemma two_64 : 2 ^ 64 = 18446744073709551616.
Proof. reflexivity. Qed.

Lemma wrap64_small z : - 2 ^ 63 <= z < 2 ^ 63 -> wrap64 z = z.
Proof.
  intros H. unfold wrap64. rewrite two_63, two_64 in *.
  rewrite Z.mod_small; lia.
Qed.

Lemma floor_tenth_bounds (q : Q) :
  (inject_Z (10 * Qfloor (q / inject_Z 10)) <= q)%Q /\
  (q < inject_Z (10 * Qfloor (q / inject_Z 10) + 10))%Q.
Proof.
  destruct q as [n d]. unfold Qdiv, Qinv, Qmult, Qfloor, Qle, Qlt, inject_Z. simpl.
  rewrite Z.mul_1_r.
  pose proof (Z.div_mod n (Z.pos (d * 10)) ltac:(lia)) as Hdm.
  pose proof (Z.mod_pos_bound n (Z.pos (d * 10)) ltac:(lia)) as Hb.
  set (k := n / Z.pos (d * 10)) in *.
  set (r := n mod Z.pos (d * 10)) in *.
  rewrite Pos2Z.inj_mul in Hdm, Hb.
  split; nia.
Qed.

Lemma decade_cell_exact y : exact_year y -> decade_of y (decade_cell y).
Proof.
  destruct y as [z|[q| |]|s]; cbn [exact_year decade_cell]; try contradiction.
  - intros Hz. rewrite two_63 in Hz. exists (z / 10).
    pose proof (Z.div_mod z 10 ltac:(lia)) as Hdm.
    pose proof (Z.mod_pos_bound z 10 ltac:(lia)) as Hb.
    split; [lia|].
    rewrite wrap64_small by (rewrite two_63; lia). f_equal. lia.
  - intros _. exists (Qfloor (q / inject_Z 10)).
    destruct (floor_tenth_bounds q) as [H1 H2].
    split; [exact H1|]. split; [exact H2|].
    f_equal. f_equal. cbn [float_floordiv float_mul].
    unfold Qmult, inject_Z. cbn [Qnum Qden].
    rewrite (Z.mul_comm 10). reflexivity.
Qed.

Example decade_of_1999 :
  decade_cell (CInt 1999) = CInt 1990 /\
  decade_cell (CFloat (FNum 1999)) = CFloat (FNum 1990).
Proof. split; reflexivity. Qed.

Lemma In_combine_map {A B} (f : A -> B) (idx : list nat) (l : list A) r :
  In r (combine idx (combine l (List.map f l))) ->
  snd (snd r) = f (fst (snd r)).
Proof.
  revert l. induction idx as [|i idx IH]; intros [|x l]; simpl; try tauto.
  intros [<-|H]; [reflexivity | eauto].
Qed.

Lemma length_take_mask {A} m (l : list A) :
  (List.length m <= List.length l)%nat ->
  List.length (take_mask m l) = count_true m.
Proof.
  revert l. induction m as [|b m IH]; intros [|x l] Hl; simpl in *; try lia.
  destruct b; simpl; rewrite IH; lia.
Qed.

Lemma length_zip_and a b :
  List.length (zip_and a b) = Nat.min (List.length a) (List.length b).
Proof.
  revert b. induction a as [|x a IH]; intros [|y b]; simpl; auto.
Qed.

Lemma length_mask2 idx ca cb :
  (List.length (mask2 idx ca cb) <= List.length idx)%nat /\
  (List.length (mask2 idx ca cb) <= List.length ca)%nat /\
  (List.length (mask2 idx ca cb) <= List.length cb)%nat.
Proof.
  unfold mask2. rewrite !length_zip_and, !List.length_map. lia.
Qed.

Lemma map_fst_combine {A B} (a : list A) (b : list B) :
  List.length a = List.length b -> List.map fst (combine a b) = a.
Proof.
  revert b. induction a as [|x a IH]; intros [|y b]; simpl; try discriminate; auto.
  intros [= H]. now rewrite IH.
Qed.

(** C3 (amended).  The decade column is added to the table line 15 has
    already cut down, one value per retained row; for a year in the
    exact range it is the multiple of ten at or just below the year. *)
Theorem decade_of_retained_rows (raw data : DataFrame) :
  clean raw = Ok data ->
  exists parsed kept,
    parse_columns raw = Ok parsed /\ retain parsed = Ok kept /\
    index data = index kept /\
    List.map fst (rows2 data "Released_Year" "Decade") = index kept /\
    Forall (fun r => exact_year (fst (snd r)) ->
                     decade_of (fst (snd r)) (snd (snd r)))
      (rows2 data "Released_Year" "Decade").
Proof.
  intros H. apply clean_inv in H. destruct H as (parsed & kept & Hp & Hr & Hd).
  exists parsed, kept. split; [exact Hp|]. split; [exact Hr|].
  apply add_decade_inv in Hd. destruct Hd as (year & tens & Hy & Ht & ->).
  split; [reflexivity|].
  assert (Hrows : rows2 (set_col kept "Decade" (mul tens 10))
                    "Released_Year" "Decade"
                  = combine (index kept)
                      (combine (cells year) (List.map decade_cell (cells year)))).
  { unfold rows2, set_col. simpl.
    rewrite lookup_assign_ne by discriminate. rewrite Hy, lookup_assign_eq.
    now rewrite (decade_cells _ _ Ht). }
  rewrite Hrows. split.
  - apply map_fst_combine. rewrite List.length_combine, List.length_map, Nat.min_id.
    apply retain_inv in Hr. destruct Hr as (y0 & g0 & Hy0 & Hg0 & ->).
    simpl in *. rewrite lookup_take, Hy0 in Hy. injection Hy as <-.
    rewrite cells_take.
    destruct (length_mask2 (index parsed) (cells y0) (cells g0)) as (L1 & L2 & _).
    now rewrite !length_take_mask.
  - apply List.Forall_forall. intros r Hin Hex.
    apply In_combine_map in Hin. rewrite Hin. now apply decade_cell_exact.
Qed.

Lemma retention_keeps_exactly_non_null_witness :
  clean Samples.four_films = Ok (Samples.cleaned Samples.four_films) /\
  exists parsed,
    parse_columns Samples.four_films = Ok parsed /\
    index parsed = index Samples.four_films /\
    rows2 (Samples.cleaned Samples.four_films) "Released_Year" "Gross"
      = List.filter both_present (rows2 parsed "Released_Year" "Gross") /\
    index (Samples.cleaned Samples.four_films)
      = List.map fst (rows2 (Samples.cleaned Samples.four_films)
                        "Released_Year" "Gross") /\
    Forall (fun r => isnull (fst (snd r)) = false /\ isnull (snd (snd r)) = false)
      (rows2 (Samples.cleaned Samples.four_films) "Released_Year" "Gross").
Proof.
  split; [vm_compute; reflexivity|].
  apply (retention_keeps_exactly_non_null Samples.four_films).
  vm_compute; reflexivity.
Defined.

Example four_films_retained :
  index (Samples.cleaned Samples.four_films) = [0%nat; 1%nat] /\
  rows2 (Samples.cleaned Samples.four_films) "Released_Year" "Decade"
  = [ (0%nat, (CFloat (FNum 1994), CFloat (FNum 1990)));
      (1%nat, (CFloat (FNum 1972), CFloat (FNum 1970))) ].
Proof. split; vm_compute; reflexivity. Qed.

Lemma decade_of_retained_rows_witness :
  clean Samples.four_films = Ok (Samples.cleaned Samples.four_films) /\
  exists parsed kept,
    parse_columns Samples.four_films = Ok parsed /\ retain parsed = Ok kept /\
    index (Samples.cleaned Samples.four_films) = index kept /\
    List.map fst (rows2 (Samples.cleaned Samples.four_films)
                    "Released_Year" "Decade") = index kept /\
    Forall (fun r => exact_year (fst (snd r)) ->
                     decade_of (fst (snd r)) (snd (snd r)))
      (rows2 (Samples.cleaned Samples.four_films) "Released_Year" "Decade").
Proof.
  split; [vm_compute; reflexivity|].
  apply (decade_of_retained_rows Samples.four_films).
  vm_compute; reflexivity.
Defined.

(** C3, as stated, fails on an int64 year column: the product of line 18
    wraps around for the least int64, and the decade of the one retained
    row is neither a multiple of ten nor at or below the year. *)
Lemma decade_wraps_for_least_int64 :
  exists data,
    clean Samples.least_year = Ok data /\
    rows2 data "Released_Year" "Decade"
      = [ (0%nat, (CInt (- 9223372036854775808), CInt 9223372036854775806)) ] /\
    9223372036854775806 mod 10 = 6 /\
    ~ decade_of (CInt (- 9223372036854775808)) (CInt 9223372036854775806).
Proof.
  eexists. split; [vm_compute; reflexivity|].
  split; [vm_compute; reflexivity|]. split; [reflexivity|].
  intros [k [Hk Hd]]. injection Hd as Hd. lia.
Qed.

(** ** The gross column *)

Lemma sub_end_nil l : sub_end [] l = l.
Proof.
  induction l as [|x [|y r] IH]; simpl in *; auto.
  - now destruct (Ascii.eqb x newline).
  - now rewrite IH.
Qed.

Lemma re_sub_end_empty s : re_sub REnd "" s = s.
Proof.
  unfold re_sub. simpl. rewrite sub_end_nil.
  apply string_of_list_ascii_of_string.
Qed.

(** C1 at the input of the example.  The pattern [$] of the second
    [replace] is compiled to the end-of-string anchor, so that call
    returns every string unchanged; the currency symbol stays, the
    conversion to float does not go through, and the cleaned table keeps
    the row with the text ["$1234567"] for its gross.  Had the symbol
    been removed, the text would convert to 1234567.0.  The field
    ["N/A"] is read as a missing value, and its row is dropped. *)
Theorem gross_currency_symbol_is_kept :
  re_compile "$" = Some REnd /\
  (forall s, re_sub REnd "" s = s) /\
  py_float "$1234567" = None /\
  py_float "1234567" = Some (FNum 1234567) /\
  read_text ["$1,234,567"; "N/A"] = SObj [Some "$1,234,567"; None] /\
  exists data,
    clean Samples.dollar_gross = Ok data /\
    rows1 data "Gross" = [ (0%nat, CStr "$1234567") ].
Proof.
  split; [reflexivity|]. split; [exact re_sub_end_empty|].
  split; [reflexivity|]. split; [reflexivity|]. split; [reflexivity|].
  eexists. split; vm_compute; reflexivity.
Qed.

(** ** The runtime column *)

Lemma to_numeric_not_text s : forall xs, to_numeric_coerce s <> SObj xs.
Proof.
  intros xs. destruct s as [| |ys]; simpl; try discriminate.
  destruct (all_ints _); discriminate.
Qed.

Lemma floordiv_numeric s m :
  exists tens, floordiv (series_take m (to_numeric_coerce s)) 10 = Ok tens.
Proof.
  pose proof (to_numeric_not_text s) as H.
  destruct (to_numeric_coerce s) as [xs|xs|xs]; simpl; eauto.
  exfalso. now apply (H xs).
Qed.

Lemma clean_runs raw gross votes xs year :
  lookup_col "Gross" (columns raw) = Some gross ->
  lookup_col "No_of_Votes" (columns raw) = Some votes ->
  lookup_col "Runtime" (columns raw) = Some (SObj xs) ->
  lookup_col "Released_Year" (columns raw) = Some year ->
  exists data, clean raw = Ok data /\ index data = kept_labels raw year gross.
Proof.
  intros Hg Hv Hr Hy.
  set (d1 := set_col raw "Gross" (astype_float_ignore (gross_text gross))).
  set (d2 := set_col d1 "No_of_Votes" (to_numeric_coerce votes)).
  set (d3 := set_col d2 "Runtime" (astype_float_ignore (SObj (runtime_text xs)))).
  set (parsed := set_col d3 "Released_Year" (to_numeric_coerce year)).
  assert (Hp : parse_columns raw = Ok parsed).
  { unfold parse_columns.
    assert (E1 : get_col raw "Gross" = Ok gross) by now apply get_col_ok.
    rewrite E1, bind_Ok, replace_comma, bind_Ok, replace_dollar, bind_Ok.
    match goal with
    | |- context [astype_float_ignore ?t] =>
        replace t with (gross_text gross) by (destruct gross; reflexivity)
    end.
    fold d1.
    assert (E2 : get_col d1 "No_of_Votes" = Ok votes).
    { apply get_col_ok. unfold d1. simpl.
      now rewrite lookup_assign_ne by discriminate. }
    rewrite E2, bind_Ok. fold d2.
    assert (E3 : get_col d2 "Runtime" = Ok (SObj xs)).
    { apply get_col_ok. unfold d2, d1. simpl.
      now rewrite !lookup_assign_ne by discriminate. }
    rewrite E3, bind_Ok.
    change (Pandas.str_replace " min" "" (SObj xs)) with (Ok (SObj (runtime_text xs))).
    rewrite bind_Ok. fold d3.
    assert (E4 : get_col d3 "Released_Year" = Ok year).
    { apply get_col_ok. unfold d3, d2, d1. simpl.
      now rewrite !lookup_assign_ne by discriminate. }
    rewrite E4, bind_Ok. reflexivity. }
  assert (Ly : lookup_col "Released_Year" (columns parsed)
               = Some (to_numeric_coerce year)).
  { unfold parsed. simpl. apply lookup_assign_eq. }
  assert (Lg : lookup_col "Gross" (columns parsed)
               = Some (astype_float_ignore (gross_text gross))).
  { unfold parsed, d3, d2, d1. simpl.
    rewrite !lookup_assign_ne by discriminate. apply lookup_assign_eq. }
  set (m := mask2 (index raw) (cells (to_numeric_coerce year))
              (cells (astype_float_ignore (gross_text gross)))).
  assert (Hk : retain parsed = Ok (take m parsed)).
  { unfold retain, dropna. simpl.
    assert (E1 : get_col parsed "Released_Year" = Ok (to_numeric_coerce year))
      by now apply get_col_ok.
    assert (E2 : get_col parsed "Gross" = Ok (astype_float_ignore (gross_text gross)))
      by now apply get_col_ok.
    rewrite E1, bind_Ok, E2, !bind_Ok. reflexivity. }
  destruct (floordiv_numeric year m) as [tens Ht].
  exists (set_col (take m parsed) "Decade" (mul tens 10)). split.
  - unfold clean. rewrite Hp, bind_Ok, Hk, bind_Ok. unfold add_decade.
    assert (E1 : get_col (take m parsed) "Released_Year"
                 = Ok (series_take m (to_numeric_coerce year))).
    { apply get_col_ok. unfold take. cbn [columns].
      now rewrite lookup_take, Ly. }
    rewrite E1, bind_Ok, Ht, bind_Ok. reflexivity.
  - reflexivity.
Qed.

(** C7 (amended).  The runtime column must be text; [" min"] is removed
    from every value and the column is then converted as a whole: it
    becomes float64 when every value converts, and stays the stripped
    text otherwise.  The text ["142 min"] is stripped to ["142"], which
    converts to 142.0.  Whatever text the runtime column holds, the same
    rows are retained. *)
Theorem runtime_is_converted_as_a_column (raw data : DataFrame) :
  clean raw = Ok data ->
  exists parsed xs,
    parse_columns raw = Ok parsed /\
    lookup_col "Runtime" (columns raw) = Some (SObj xs) /\
    lookup_col "Runtime" (columns parsed)
      = Some match all_floats (runtime_text xs) with
             | Some fs => SFloat fs
             | None => SObj (runtime_text xs)
             end /\
    Text.str_replace " min" "" "142 min" = "142" /\
    py_float "142" = Some (FNum 142) /\
    forall ys,
      exists data',
        clean (set_col raw "Runtime" (SObj ys)) = Ok data' /\
        index data' = index data.
Proof.
  intros H. pose proof H as H0. apply clean_inv in H0.
  destruct H0 as (parsed & _ & Hp & _). exists parsed.
  pose proof Hp as Hp0. apply parse_columns_inv in Hp0.
  destruct Hp0 as (gross & votes & xs & year & Hg & Hv & Hr & Hy & ->).
  exists xs. split; [exact Hp|]. split; [exact Hr|]. split.
  - cbn [set_col columns]. rewrite lookup_assign_ne by discriminate.
    rewrite lookup_assign_eq. reflexivity.
  - split; [reflexivity|]. split; [reflexivity|]. intros ys.
    destruct (clean_runs (set_col raw "Runtime" (SObj ys)) gross votes ys year)
      as (data' & Hd' & Hi').
    + cbn [set_col columns]. now rewrite lookup_assign_ne by discriminate.
    + cbn [set_col columns]. now rewrite lookup_assign_ne by discriminate.
    + cbn [set_col columns]. apply lookup_assign_eq.
    + cbn [set_col columns]. now rewrite lookup_assign_ne by discriminate.
    + exists data'. split; [exact Hd'|].
      destruct (clean_runs raw gross votes xs year Hg Hv Hr Hy) as (d & Hd & Hi).
      rewrite Hi'. assert (d = data) by congruence. subst d. rewrite Hi.
      reflexivity.
Qed.

Lemma runtime_is_converted_as_a_column_witness :
  clean Samples.odd_runtime = Ok (Samples.cleaned Samples.odd_runtime) /\
  exists parsed xs,
    parse_columns Samples.odd_runtime = Ok parsed /\
    lookup_col "Runtime" (columns Samples.odd_runtime) = Some (SObj xs) /\
    lookup_col "Runtime" (columns parsed)
      = Some match all_floats (runtime_text xs) with
             | Some fs => SFloat fs
             | None => SObj (runtime_text xs)
             end /\
    Text.str_replace " min" "" "142 min" = "142" /\
    py_float "142" = Some (FNum 142) /\
    forall ys,
      exists data',
        clean (set_col Samples.odd_runtime "Runtime" (SObj ys)) = Ok data' /\
        index data' = index (Samples.cleaned Samples.odd_runtime).
Proof.
  split; [vm_compute; reflexivity|].
  apply (runtime_is_converted_as_a_column Samples.odd_runtime).
  vm_compute; reflexivity.
Defined.

(** C7, as stated, fails when another row of the column does not
    convert: the whole column stays text, and the row that held
    ["142 min"] ends with the string ["142"], not the number 142.0. *)
Lemma runtime_stays_text_beside_a_bad_value :
  exists data,
    clean Samples.odd_runtime = Ok data /\
    rows1 data "Runtime" = [ (0%nat, CStr "142"); (1%nat, CStr "unknown") ] /\
    CStr "142" <> CFloat (FNum 142).
Proof.
  eexists. split; [vm_compute; reflexivity|].
  split; [vm_compute; reflexivity | discriminate].
Qed.

(** ** Equality of values *)

Lemma Qeq_bool_norm p q : Qeq_bool p q = true <-> KNum (Qred p) = KNum (Qred q).
Proof.
  rewrite Qeq_bool_iff, <- Qred_eq_iff. split; [congruence | now intros [= ->]].
Qed.

Lemma cell_eqb_norm a b :
  cell_eqb a b = true <-> norm a = norm b /\ norm a <> KNaN.
Proof.
  destruct a as [x|[p|n|]|s], b as [y|[q|m|]|t]; simpl;
    try (split; [discriminate | intros [H _]; discriminate]);
    try (split; [discriminate | intros [_ H]; congruence]).
  - rewrite Z.eqb_eq. split.
    + intros ->. split; [reflexivity | discriminate].
    + intros [[= H] _]. apply Qred_eq_iff in H. unfold Qeq in H. simpl in H. lia.
  - rewrite Qeq_bool_norm. split; [intros H; split; [exact H | discriminate] | tauto].
  - rewrite Qeq_bool_norm. split; [intros H; split; [exact H | discriminate] | tauto].
  - rewrite Qeq_bool_norm. split; [intros H; split; [exact H | discriminate] | tauto].
  - rewrite Bool.eqb_true_iff. split.
    + intros ->. split; [reflexivity | discriminate].
    + now intros [[= ->] _].
  - rewrite String.eqb_eq. split.
    + intros ->. split; [reflexivity | discriminate].
    + now intros [[= ->] _].
Qed.

Lemma cell_eqb_trans a b c :
  cell_eqb a b = true -> cell_eqb b c = true -> cell_eqb a c = true.
Proof. rewrite !cell_eqb_norm. intros [H1 H2] [H3 H4]. split; congruence. Qed.

Lemma cell_eqb_sym a b : cell_eqb a b = true -> cell_eqb b a = true.
Proof. rewrite !cell_eqb_norm. intros [H1 H2]. split; congruence. Qed.

Lemma cell_eqb_refl a : isnull a = false -> cell_eqb a a = true.
Proof.
  intros H. apply cell_eqb_norm. split; [reflexivity|].
  destruct a as [x|[p|n|]|s]; simpl in *; congruence.
Qed.

Lemma cell_eqb_notnull a b : cell_eqb a b = true -> isnull b = false.
Proof. destruct a as [x|[p|n|]|s], b as [y|[q|m|]|t]; simpl; congruence. Qed.

Lemma cell_eqb_congr a b x :
  cell_eqb a b = true -> cell_eqb a x = cell_eqb b x.
Proof.
  intros H. destruct (cell_eqb a x) eqn:E1, (cell_eqb b x) eqn:E2; auto.
  - apply cell_eqb_sym in H. now rewrite (cell_eqb_trans _ _ _ H E1) in E2.
  - now rewrite (cell_eqb_trans _ _ _ H E2) in E1.
Qed.

(** ** Counting genres *)

Lemma count_key_congr a b l :
  cell_eqb a b = true -> count_key a l = count_key b l.
Proof.
  intros H. unfold count_key. f_equal. apply List.filter_ext.
  intros x. now apply cell_eqb_congr.
Qed.

Lemma count_key_present k l :
  count_key k (List.filter notnull l) = count_key k l.
Proof.
  unfold count_key. f_equal. induction l as [|x l IH]; simpl; auto.
  destruct (notnull x) eqn:N; simpl; rewrite IH; auto.
  destruct (cell_eqb k x) eqn:E; auto.
  apply cell_eqb_notnull in E. unfold notnull in N. now rewrite E in N.
Qed.

Lemma count_key_pos k l :
  (0 < count_key k l)%nat -> exists x, In x l /\ cell_eqb k x = true.
Proof.
  unfold count_key. destruct (List.filter (cell_eqb k) l) as [|x r] eqn:E; simpl.
  - lia.
  - intros _. exists x. apply List.filter_In. rewrite E. now left.
Qed.

Lemma uniq_incl k l : In k (uniq l) -> In k l.
Proof.
  revert k. induction l as [|x l IH]; simpl; auto.
  intros k [->|H]; auto. apply List.filter_In in H. right. now apply IH.
Qed.

Lemma uniq_covers x l :
  In x l -> isnull x = false ->
  exists k, In k (uniq l) /\ cell_eqb k x = true.
Proof.
  induction l as [|y l IH]; simpl; [tauto|].
  intros [->|Hin] Hx.
  - exists x. split; [now left | now apply cell_eqb_refl].
  - destruct (IH Hin Hx) as (k & Hk & Hkx).
    destruct (cell_eqb y k) eqn:E.
    + exists y. split; [now left | eapply cell_eqb_trans; eauto].
    + exists k. split; [|exact Hkx]. right. apply List.filter_In.
      now rewrite E.
Qed.

Lemma In_insert_desc p q l : In q (insert_desc p l) <-> q = p \/ In q l.
Proof.
  induction l as [|r l IH]; simpl.
  - intuition congruence.
  - destruct (snd r <=? snd p)%nat; simpl; [intuition congruence|].
    rewrite IH. intuition congruence.
Qed.

Lemma In_sort_desc q l : In q (sort_desc l) <-> In q l.
Proof.
  induction l as [|p l IH]; simpl; [tauto|].
  rewrite In_insert_desc, IH. intuition congruence.
Qed.

Lemma insert_desc_sorted p l :
  StronglySorted by_count l -> StronglySorted by_count (insert_desc p l).
Proof.
  induction 1 as [|q l Hs IH Hf]; simpl.
  - constructor; constructor.
  - destruct (snd q <=? snd p)%nat eqn:E.
    + apply Nat.leb_le in E. constructor; [now constructor|].
      constructor; [exact E|].
      eapply List.Forall_impl; [|exact Hf]. unfold by_count. intros; lia.
    + apply Nat.leb_gt in E. constructor; [exact IH|].
      apply List.Forall_forall. intros r Hr. apply In_insert_desc in Hr.
      destruct Hr as [->|Hr]; [unfold by_count; lia|].
      rewrite List.Forall_forall in Hf. now apply Hf.
Qed.

Lemma sort_desc_sorted l : StronglySorted by_count (sort_desc l).
Proof.
  induction l as [|p l IH]; simpl; [constructor | now apply insert_desc_sorted].
Qed.

Lemma sorted_filter {A} (R : A -> A -> Prop) f l :
  StronglySorted R l -> StronglySorted R (List.filter f l).
Proof.
  induction 1 as [|x l Hs IH Hf]; simpl; [constructor|].
  destruct (f x); [|exact IH]. constructor; [exact IH|].
  apply List.Forall_forall. intros y Hy. apply List.filter_In in Hy.
  rewrite List.Forall_forall in Hf. now apply Hf.
Qed.

Lemma sorted_map {A B} (R : B -> B -> Prop) (f : A -> B) l :
  StronglySorted (fun a b => R (f a) (f b)) l ->
  StronglySorted R (List.map f l).
Proof.
  induction 1 as [|x l Hs IH Hf]; simpl; constructor; auto.
  apply List.Forall_forall. intros y Hy. apply List.in_map_iff in Hy.
  destruct Hy as (z & <- & Hz). rewrite List.Forall_forall in Hf. now apply Hf.
Qed.

Lemma sorted_weaken {A} (R S : A -> A -> Prop) l :
  (forall a b, In a l -> In b l -> R a b -> S a b) ->
  StronglySorted R l -> StronglySorted S l.
Proof.
  intros H Hs. induction Hs as [|x l Hs IH Hf]; constructor.
  - apply IH. intros a b Ha Hb. apply H; now right.
  - rewrite List.Forall_forall in *. intros y Hy.
    apply H; [now left | now right | now apply Hf].
Qed.

Lemma In_value_counts s k n :
  In (k, n) (value_counts s) <->
  In k (uniq (List.filter notnull (cells s))) /\ n = count_key k (cells s).
Proof.
  unfold value_counts. rewrite In_sort_desc, List.in_map_iff. split.
  - intros (x & [= <- <-] & Hx). now rewrite count_key_present.
  - intros [Hk ->]. exists k. now rewrite count_key_present.
Qed.

Lemma In_over_threshold gc k :
  In k (over_threshold gc) <-> exists n, In (k, n) gc /\ (10 < n)%nat.
Proof.
  unfold over_threshold. rewrite List.in_map_iff. split.
  - intros ([k' n] & <- & H). apply List.filter_In in H. destruct H as [H1 H2].
    simpl in *. apply Nat.ltb_lt in H2. eauto.
  - intros (n & H1 & H2). exists (k, n). split; [reflexivity|].
    apply List.filter_In. split; [exact H1|]. simpl. now apply Nat.ltb_lt.
Qed.

(** A genre is on the list exactly when more than ten rows carry it. *)
Lemma qualifying_iff s g :
  existsb (cell_eqb g) (over_threshold (value_counts s)) = true <->
  (10 < count_key g (cells s))%nat.
Proof.
  rewrite List.existsb_exists. split.
  - intros (k & Hk & Hgk). apply In_over_threshold in Hk.
    destruct Hk as (n & Hn & Hlt). apply In_value_counts in Hn.
    destruct Hn as [_ ->]. now rewrite (count_key_congr _ _ _ Hgk).
  - intros Hlt.
    destruct (count_key_pos g (cells s) ltac:(lia)) as (x & Hx & Hgx).
    pose proof (cell_eqb_notnull _ _ Hgx) as Hnn.
    destruct (uniq_covers x (List.filter notnull (cells s))) as (k & Hk & Hkx).
    { apply List.filter_In. split; [exact Hx|]. unfold notnull. now rewrite Hnn. }
    { exact Hnn. }
    assert (Hgk : cell_eqb g k = true).
    { eapply cell_eqb_trans; [exact Hgx | now apply cell_eqb_sym]. }
    exists k. split; [|exact Hgk]. apply In_over_threshold.
    exists (count_key k (cells s)). split.
    + now apply In_value_counts.
    + now rewrite <- (count_key_congr _ _ _ Hgk).
Qed.

(** The list is in order of decreasing row count. *)
Lemma qualifying_sorted s :
  StronglySorted
    (fun a b => (count_key b (cells s) <= count_key a (cells s))%nat)
    (over_threshold (value_counts s)).
Proof.
  unfold over_threshold. apply sorted_map. apply sorted_filter.
  eapply sorted_weaken; [|apply sort_desc_sorted].
  intros [a n] [b m] Ha Hb. fold (value_counts s) in Ha, Hb.
  apply In_value_counts in Ha, Hb. destruct Ha as [_ ->], Hb as [_ ->].
  unfold by_count. simpl. auto.
Qed.

Lemma qualifying_notnull s k :
  In k (over_threshold (value_counts s)) -> isnull k = false.
Proof.
  intros H. apply In_over_threshold in H. destruct H as (n & H & _).
  apply In_value_counts in H. destruct H as [H _]. apply uniq_incl in H.
  apply List.filter_In in H. destruct H as [_ H]. unfold notnull in H.
  now apply negb_true_iff in H.
Qed.

Lemma isin_eqb_notnull c l :
  (forall k, In k l -> isnull k = false) ->
  existsb (isin_eqb c) l = existsb (cell_eqb c) l.
Proof.
  intros H. induction l as [|k l IH]; simpl; auto.
  unfold isin_eqb at 1. rewrite (H k) by now left.
  rewrite andb_false_r. simpl. f_equal. apply IH. intros k' Hk'. apply H. now right.
Qed.


(** ** The decade-bar chart *)

Lemma create_facet_chart_eq g G :
  create_facet_chart g G = (fun fig => (fig, G)) <$> facet_chart_of g G.
Proof.
  unfold create_facet_chart, facet_chart_of, read, lift, mbind, M_bind, mret,
    M_ret, fmap, result_fmap, result_bind.
  destruct (get_col (data_filtered G) "Genre") as [genre|e]; [|reflexivity].
  destruct (px_bar _ _ _ _ _ _) as [chart|e]; reflexivity.
Qed.

Lemma create_facet_chart_inv g G fig G' :
  create_facet_chart g G = Ok (fig, G') ->
  G' = G /\ facet_chart_of g G = Ok fig.
Proof.
  rewrite create_facet_chart_eq. destruct (facet_chart_of g G); simpl.
  - now intros [= <- <-].
  - discriminate.
Qed.

Lemma facet_chart_of_inv g G fig :
  facet_chart_of g G = Ok fig ->
  exists genre decade rating titles,
    lookup_col "Genre" (columns (data_filtered G)) = Some genre /\
    lookup_col "Decade" (columns (data_filtered G)) = Some decade /\
    lookup_col "IMDB_Rating" (columns (data_filtered G)) = Some rating /\
    lookup_col "Series_Title" (columns (data_filtered G)) = Some titles /\
    fig = {| fig_data := [facet_trace g (genre_colors G) genre decade rating titles];
             fig_layout := facet_layout g |}.
Proof.
  unfold facet_chart_of. intros H. inv_bind H. rename v into genre.
  apply get_col_ok in Hv. inv_bind H. rename v into chart.
  injection H as <-. unfold px_bar in Hv0.
  inv_bind Hv0. rename v into xs. inv_bind Hv0. rename v into ys.
  inv_bind Hv0. rename v into hs. injection Hv0 as <-.
  simpl in Hv3. inv_bind Hv3. injection Hv3 as <-.
  unfold plot_col, take in Hv1, Hv2, Hv0. cbn [columns] in Hv1, Hv2, Hv0.
  rewrite lookup_take in Hv1, Hv2, Hv0.
  destruct (lookup_col "Decade" _) as [decade|]; [|discriminate].
  destruct (lookup_col "IMDB_Rating" _) as [rating|]; [|discriminate].
  destruct (lookup_col "Series_Title" _) as [titles|]; [|discriminate].
  simpl in Hv1, Hv2, Hv0.
  injection Hv1 as <-. injection Hv2 as <-. injection Hv0 as <-.
  exists genre, decade, rating, titles. repeat (split; [auto; fail|]).
  unfold facet_trace. cbn [List.map]. rewrite !cells_take. reflexivity.
Qed.

Lemma facet_chart_of_runs g G genre decade rating titles :
  lookup_col "Genre" (columns (data_filtered G)) = Some genre ->
  lookup_col "Decade" (columns (data_filtered G)) = Some decade ->
  lookup_col "IMDB_Rating" (columns (data_filtered G)) = Some rating ->
  lookup_col "Series_Title" (columns (data_filtered G)) = Some titles ->
  facet_chart_of g G
  = Ok {| fig_data := [facet_trace g (genre_colors G) genre decade rating titles];
          fig_layout := facet_layout g |}.
Proof.
  intros Hg Hd Hr Ht. unfold facet_chart_of.
  assert (E : get_col (data_filtered G) "Genre" = Ok genre) by now apply get_col_ok.
  rewrite E, bind_Ok. unfold px_bar, plot_cols, plot_col, take. cbn [columns].
  rewrite !lookup_take, Hd, Hr, Ht. cbn [option_map mbind result_bind List.map].
  unfold facet_trace. rewrite !cells_take. reflexivity.
Qed.


(** ** Start-up *)

Section StartupFacts.

Variables render_treemap render_scatter render_parallel
  : DataFrame -> result Figure.

Local Abbreviation load :=
  (Submission.load render_treemap render_scatter render_parallel).
Local Abbreviation startup :=
  (Submission.startup render_treemap render_scatter render_parallel).

Lemma plot_cols_ok df names ss :
  plot_cols df names = Ok ss ->
  forall n, In n names -> exists s, lookup_col n (columns df) = Some s.
Proof.
  revert ss. induction names as [|x names IH]; simpl; [tauto|].
  intros ss H. inv_bind H. inv_bind H. injection H as <-.
  intros n [<-|Hn]; [|eauto].
  unfold plot_col in Hv. destruct (lookup_col x (columns df)); [eauto|discriminate].
Qed.

Lemma load_inv raw G :
  load raw = Ok G ->
  exists genre,
    clean raw = Ok (data G) /\
    lookup_col "Genre" (columns (data G)) = Some genre /\
    genre_colors G = genre_colors_literal /\
    genre_counts G = value_counts genre /\
    selected_genres G = over_threshold (value_counts genre) /\
    data_filtered G = take (isin genre (selected_genres G)) (data G) /\
    (exists s, lookup_col "IMDB_Rating" (columns (data G)) = Some s) /\
    (exists s, lookup_col "Series_Title" (columns (data G)) = Some s).
Proof.
  unfold Submission.load. intros H.
  inv_bind H. rename v into d. inv_bind H. rename v into genre.
  apply get_col_ok in Hv0.
  inv_bind H. inv_bind H. inv_bind H. injection H as <-. simpl.
  exists genre. repeat (split; [auto; fail|]).
  unfold px_scatter in Hv2. inv_bind Hv2.
  pose proof (plot_cols_ok _ _ _ Hv4) as Hc.
  split; apply Hc; simpl; tauto.
Qed.

Lemma startup_inv raw app :
  startup raw = Ok app ->
  exists value,
    load raw = Ok (app_globals app) /\
    build (app_globals app) = Ok app /\
    first (selected_genres (app_globals app)) = Ok value.
Proof.
  unfold Submission.startup. intros H. inv_bind H. rename v into G.
  pose proof H as Hb. unfold build in H. inv_bind H.
  injection H as <-. simpl. eauto.
Qed.



(** C6.  Once the application has started, every bar trace of the chart
    for a genre has the color the table gives that genre, or ["#337BFF"]
    when the table has no entry for it; the table gives ["#8E44AD"] for
    Horror, and ["#337BFF"] is its entry for Drama. *)
Theorem bar_color_from_genre_table (raw : DataFrame) (app : App)
  (g : option cell) (fig : Figure) (G' : Globals) :
  startup raw = Ok app ->
  update_facet_chart g (app_globals app) = Ok (fig, G') ->
  fig_data fig <> [] /\
  Forall (fun t => tr_marker_color t
                   = Some match g with
                          | Some (CStr s) =>
                              default "#337BFF" (genre_colors_literal !! s)
                          | _ => "#337BFF"
                          end)
    (fig_data fig) /\
  genre_colors_literal !! "Horror" = Some "#8E44AD" /\
  genre_colors_literal !! "Drama" = Some "#337BFF".
Proof.
  intros Hs Hu. apply startup_inv in Hs. destruct Hs as (value & Hl & _ & _).
  apply load_inv in Hl. destruct Hl as (genre & _ & _ & Hc & _).
  unfold update_facet_chart in Hu. apply create_facet_chart_inv in Hu.
  destruct Hu as [_ Hu]. apply facet_chart_of_inv in Hu.
  destruct Hu as (ge & de & ra & ti & _ & _ & _ & _ & ->). simpl.
  split; [discriminate|]. split; [|split; reflexivity].
  constructor; [|constructor]. simpl. rewrite Hc. reflexivity.
Qed.

(** C8.  The page has one dropdown: its options are the qualifying
    genres, each as its own label, and its value is the first of them.
    The application has one callback, from the value of that dropdown to
    the figure of the graph ["facet-chart"], and it runs
    [create_facet_chart]. *)
Theorem one_selector_one_callback (raw : DataFrame) (app : App) :
  startup raw = Ok app ->
  exists value rest,
    selected_genres (app_globals app) = value :: rest /\
    dropdowns (app_layout app)
      = [ ("genre-dropdown",
           List.map (fun genre => (genre, genre))
             (selected_genres (app_globals app)),
           value) ] /\
    graph_ids (app_layout app) = ["facet-chart"] /\
    app_callbacks app
      = [ {| cb_output := ("facet-chart", "figure");
             cb_input := ("genre-dropdown", "value");
             cb_function := update_facet_chart |} ] /\
    forall g, update_facet_chart g = create_facet_chart g.
Proof.
  intros Hs. apply startup_inv in Hs. destruct Hs as (value & _ & Hb & Hf).
  remember (app_globals app) as G eqn:HG.
  unfold build in Hb. rewrite Hf, bind_Ok in Hb.
  destruct (selected_genres G) as [|v rest] eqn:E; [discriminate|].
  injection Hf as ->. exists value, rest. split; [reflexivity|].
  injection Hb as Hb. rewrite <- Hb. simpl. auto.
Qed.


(** C10.  When no genre of the cleaned table has more than ten rows,
    start-up raises and no application is returned, whatever the static
    charts do; when the static charts are drawn, the error is the
    [IndexError] of [selected_genres[0]]. *)
Theorem no_qualifying_genre_no_application (raw table : DataFrame)
  (genre : series) :
  clean raw = Ok table ->
  lookup_col "Genre" (columns table) = Some genre ->
  over_threshold (value_counts genre) = [] ->
  (exists e, startup raw = Err e) /\
  (forall G, load raw = Ok G -> startup raw = Err IndexError).
Proof.
  intros Hc Hg He.
  assert (HI : forall G, load raw = Ok G -> startup raw = Err IndexError).
  { intros G HG. unfold Submission.startup. rewrite HG, bind_Ok.
    apply load_inv in HG. destruct HG as (genre' & Hc' & Hg' & _ & _ & Hs & _).
    assert (data G = table) by congruence. subst table.
    assert (genre' = genre) by congruence. subst genre'.
    unfold build. now rewrite Hs, He. }
  split; [|exact HI].
  destruct (load raw) as [G|e] eqn:E.
  - exists IndexError. now apply (HI G).
  - exists e. unfold Submission.startup. now rewrite E.
Qed.

End StartupFacts.

(** ** The theorems on the samples *)


Example horror_films_selected :
  selected_genres (Samples.loaded Samples.horror_films) = [CStr "Horror"] /\
  index (data_filtered (Samples.loaded Samples.horror_films)) = seq 0 11.
Proof. split; vm_compute; reflexivity. Qed.


Lemma bar_color_from_genre_table_witness :
  exists fig,
    startup Samples.render_blank Samples.render_blank Samples.render_blank
      Samples.horror_films = Ok (Samples.started Samples.horror_films) /\
    update_facet_chart (Some (CStr "Horror"))
      (app_globals (Samples.started Samples.horror_films))
    = Ok (fig, app_globals (Samples.started Samples.horror_films)) /\
    fig_data fig <> [] /\
    Forall (fun t => tr_marker_color t = Some "#8E44AD") (fig_data fig).
Proof.
  destruct (update_facet_chart (Some (CStr "Horror"))
              (app_globals (Samples.started Samples.horror_films)))
    as [[fig G']|e] eqn:E; [|vm_compute in E; discriminate E].
  assert (Hs : startup Samples.render_blank Samples.render_blank
                 Samples.render_blank Samples.horror_films
               = Ok (Samples.started Samples.horror_films))
    by (vm_compute; reflexivity).
  destruct (bar_color_from_genre_table Samples.render_blank Samples.render_blank
              Samples.render_blank Samples.horror_films
              (Samples.started Samples.horror_films) (Some (CStr "Horror"))
              fig G' Hs E) as (H1 & H2 & _).
  exists fig. split; [exact Hs|]. split; [|split; [exact H1 | exact H2]].
  unfold update_facet_chart in E. apply create_facet_chart_inv in E.
  destruct E as [-> _]. reflexivity.
Defined.

Lemma one_selector_one_callback_witness :
  startup Samples.render_blank Samples.render_blank Samples.render_blank
    Samples.horror_films = Ok (Samples.started Samples.horror_films) /\
  exists value rest,
    selected_genres (app_globals (Samples.started Samples.horror_films))
      = value :: rest /\
    dropdowns (app_layout (Samples.started Samples.horror_films))
      = [ ("genre-dropdown",
           List.map (fun genre => (genre, genre))
             (selected_genres (app_globals (Samples.started Samples.horror_films))),
           value) ] /\
    graph_ids (app_layout (Samples.started Samples.horror_films))
      = ["facet-chart"] /\
    app_callbacks (Samples.started Samples.horror_films)
      = [ {| cb_output := ("facet-chart", "figure");
             cb_input := ("genre-dropdown", "value");
             cb_function := update_facet_chart |} ] /\
    forall g, update_facet_chart g = create_facet_chart g.
Proof.
  split; [vm_compute; reflexivity|].
  apply (one_selector_one_callback Samples.render_blank Samples.render_blank
           Samples.render_blank Samples.horror_films).
  vm_compute; reflexivity.
Defined.


Example western_chart_is_empty :
  fst <$> update_facet_chart (Some (CStr "Western"))
            (app_globals (Samples.started Samples.horror_films))
  = Ok {| fig_data :=
            [ {| tr_x := []; tr_y := []; tr_hover := [[]];
                 tr_marker_color := Some "#337BFF"; tr_marker_line := None |} ];
          fig_layout := facet_layout (Some (CStr "Western")) |}.
Proof. vm_compute; reflexivity. Qed.

Lemma no_qualifying_genre_no_application_witness :
  clean Samples.four_films = Ok (Samples.cleaned Samples.four_films) /\
  lookup_col "Genre" (columns (Samples.cleaned Samples.four_films))
    = Some (SObj [Some "Drama"; Some "Crime"]) /\
  over_threshold (value_counts (SObj [Some "Drama"; Some "Crime"])) = [] /\
  (exists e,
     startup Samples.render_blank Samples.render_blank Samples.render_blank
       Samples.four_films = Err e) /\
  (forall G,
     load Samples.render_blank Samples.render_blank Samples.render_blank
       Samples.four_films = Ok G ->
     startup Samples.render_blank Samples.render_blank Samples.render_blank
       Samples.four_films = Err IndexError).
Proof.
  assert (H1 : clean Samples.four_films = Ok (Samples.cleaned Samples.four_films))
    by (vm_compute; reflexivity).
  assert (H2 : lookup_col "Genre" (columns (Samples.cleaned Samples.four_films))
               = Some (SObj [Some "Drama"; Some "Crime"]))
    by (vm_compute; reflexivity).
  assert (H3 : over_threshold (value_counts (SObj [Some "Drama"; Some "Crime"])) = [])
    by (vm_compute; reflexivity).
  split; [exact H1|]. split; [exact H2|]. split; [exact H3|].
  exact (no_qualifying_genre_no_application Samples.render_blank
           Samples.render_blank Samples.render_blank Samples.four_films
           (Samples.cleaned Samples.four_films)
           (SObj [Some "Drama"; Some "Crime"]) H1 H2 H3).
Defined.

(** * Further properties *)

(** ** Outcome of the cleaning *)

Lemma bind_Err {A B} (e : pyerr) (k : A -> result B) : mbind k (Err e) = Err e.
Proof. reflexivity. Qed.

Lemma get_col_missing df name :
  lookup_col name (columns df) = None -> get_col df name = Err (KeyError name).
Proof. unfold get_col. now intros ->. Qed.

Lemma gross_step raw gross :
  lookup_col "Gross" (columns raw) = Some gross ->
  parse_columns raw
  = (let data := set_col raw "Gross" (astype_float_ignore (gross_text gross)) in
     votes ← get_col data "No_of_Votes";
     let data := set_col data "No_of_Votes" (to_numeric_coerce votes) in
     runtime ← get_col data "Runtime";
     r1 ← Pandas.str_replace " min" "" runtime;
     let data := set_col data "Runtime" (astype_float_ignore r1) in
     year ← get_col data "Released_Year";
     Ok (set_col data "Released_Year" (to_numeric_coerce year))).
Proof.
  intros Hg. unfold parse_columns.
  assert (E1 : get_col raw "Gross" = Ok gross) by now apply get_col_ok.
  rewrite E1, bind_Ok, replace_comma, bind_Ok, replace_dollar, bind_Ok.
  match goal with
  | |- context [astype_float_ignore ?t] =>
      replace t with (gross_text gross) by (destruct gross; reflexivity)
  end.
  reflexivity.
Qed.

Lemma clean_numeric_runtime raw gross votes runtime :
  lookup_col "Gross" (columns raw) = Some gross ->
  lookup_col "No_of_Votes" (columns raw) = Some votes ->
  lookup_col "Runtime" (columns raw) = Some runtime ->
  numeric runtime ->
  clean raw = Err AttributeError.
Proof.
  intros Hg Hv Hr Hn. unfold clean. rewrite (gross_step _ _ Hg). cbv zeta.
  assert (E2 : get_col (set_col raw "Gross" (astype_float_ignore (gross_text gross)))
                 "No_of_Votes" = Ok votes).
  { apply get_col_ok. cbn [set_col columns].
    now rewrite lookup_assign_ne by discriminate. }
  rewrite E2, bind_Ok.
  assert (E3 : get_col
                 (set_col (set_col raw "Gross" (astype_float_ignore (gross_text gross)))
                    "No_of_Votes" (to_numeric_coerce votes)) "Runtime"
               = Ok runtime).
  { apply get_col_ok. cbn [set_col columns].
    now rewrite !lookup_assign_ne by discriminate. }
  rewrite E3, bind_Ok. destruct runtime; [reflexivity | reflexivity | contradiction].
Qed.

(** X1.  The cleaning of lines 11-18 raises only for a missing column or
    a runtime column that is not text: the first of Gross, No_of_Votes,
    Runtime that is missing gives its [KeyError]; a numeric runtime column
    gives [AttributeError]; a missing Released_Year gives its [KeyError];
    and with the four columns present and a text runtime the cleaning
    returns a table: line 15 and line 18 never raise. *)
Theorem clean_outcome (raw : DataFrame) :
  (lookup_col "Gross" (columns raw) = None ->
   clean raw = Err (KeyError "Gross")) /\
  (forall gross,
     lookup_col "Gross" (columns raw) = Some gross ->
     (lookup_col "No_of_Votes" (columns raw) = None ->
      clean raw = Err (KeyError "No_of_Votes")) /\
     (forall votes,
        lookup_col "No_of_Votes" (columns raw) = Some votes ->
        (lookup_col "Runtime" (columns raw) = None ->
         clean raw = Err (KeyError "Runtime")) /\
        (forall runtime,
           lookup_col "Runtime" (columns raw) = Some runtime ->
           numeric runtime -> clean raw = Err AttributeError) /\
        (forall xs,
           lookup_col "Runtime" (columns raw) = Some (SObj xs) ->
           (lookup_col "Released_Year" (columns raw) = None ->
            clean raw = Err (KeyError "Released_Year")) /\
           (forall year,
              lookup_col "Released_Year" (columns raw) = Some year ->
              exists data, clean raw = Ok data)))).
Proof.
  split.
  { intros H. unfold clean, parse_columns.
    now rewrite (get_col_missing _ _ H). }
  intros gross Hg. split.
  { intros H. unfold clean. rewrite (gross_step _ _ Hg). cbv zeta.
    rewrite get_col_missing; [reflexivity|].
    cbn [set_col columns]. now rewrite lookup_assign_ne by discriminate. }
  intros votes Hv.
  assert (E2 : get_col (set_col raw "Gross" (astype_float_ignore (gross_text gross)))
                 "No_of_Votes" = Ok votes).
  { apply get_col_ok. cbn [set_col columns].
    now rewrite lookup_assign_ne by discriminate. }
  split.
  { intros H. unfold clean. rewrite (gross_step _ _ Hg). cbv zeta.
    rewrite E2, bind_Ok. rewrite get_col_missing; [reflexivity|].
    cbn [set_col columns]. now rewrite !lookup_assign_ne by discriminate. }
  split.
  { intros runtime Hr Hn. exact (clean_numeric_runtime _ _ _ _ Hg Hv Hr Hn). }
  intros xs Hr. split.
  { intros H. unfold clean. rewrite (gross_step _ _ Hg). cbv zeta.
    rewrite E2, bind_Ok.
    assert (E3 : get_col
                   (set_col (set_col raw "Gross" (astype_float_ignore (gross_text gross)))
                      "No_of_Votes" (to_numeric_coerce votes)) "Runtime"
                 = Ok (SObj xs)).
    { apply get_col_ok. cbn [set_col columns].
      now rewrite !lookup_assign_ne by discriminate. }
    rewrite E3, bind_Ok.
    change (Pandas.str_replace " min" "" (SObj xs)) with (Ok (SObj (runtime_text xs))).
    rewrite bind_Ok. rewrite get_col_missing; [reflexivity|].
    cbn [set_col columns]. now rewrite !lookup_assign_ne by discriminate. }
  intros year Hy.
  destruct (clean_runs raw gross votes xs year Hg Hv Hr Hy) as (data & Hd & _).
  eauto.
Qed.

(** The cleaned table in terms of the raw one. *)
Lemma clean_shape raw data :
  clean raw = Ok data ->
  exists gross votes xs year tens,
    lookup_col "Gross" (columns raw) = Some gross /\
    lookup_col "No_of_Votes" (columns raw) = Some votes /\
    lookup_col "Runtime" (columns raw) = Some (SObj xs) /\
    lookup_col "Released_Year" (columns raw) = Some year /\
    let parsed :=
      set_col
        (set_col
           (set_col
              (set_col raw "Gross" (astype_float_ignore (gross_text gross)))
              "No_of_Votes" (to_numeric_coerce votes))
           "Runtime" (astype_float_ignore (SObj (runtime_text xs))))
        "Released_Year" (to_numeric_coerce year) in
    let m := mask2 (index raw) (cells (to_numeric_coerce year))
               (cells (astype_float_ignore (gross_text gross))) in
    floordiv (series_take m (to_numeric_coerce year)) 10 = Ok tens /\
    data = set_col (take m parsed) "Decade" (mul tens 10).
Proof.
  intros H. apply clean_inv in H. destruct H as (parsed & kept & Hp & Hr & Hd).
  apply parse_columns_inv in Hp.
  destruct Hp as (gross & votes & xs & year & Hg & Hv & Hru & Hy & ->).
  apply retain_inv in Hr. destruct Hr as (y' & g' & Hy' & Hg' & ->).
  apply add_decade_inv in Hd. destruct Hd as (y'' & tens & Hy'' & Ht & ->).
  cbn [set_col columns index] in Hy', Hg'.
  rewrite lookup_assign_eq in Hy'. injection Hy' as <-.
  rewrite !lookup_assign_ne in Hg' by discriminate.
  rewrite lookup_assign_eq in Hg'. injection Hg' as <-.
  unfold take in Hy''. cbn [set_col columns index] in Hy''.
  rewrite lookup_take, lookup_assign_eq in Hy''. injection Hy'' as <-.
  exists gross, votes, xs, year, tens. cbv zeta. auto 10.
Qed.

Lemma names_assign name s cols :
  List.map fst (assign_col name s cols)
  = match lookup_col name cols with
    | Some _ => List.map fst cols
    | None => (List.map fst cols ++ [name])%list
    end.
Proof.
  induction cols as [|[n s0] r IH]; simpl; [reflexivity|].
  destruct (String.eqb n name) eqn:E; simpl; [reflexivity|].
  rewrite IH. now destruct (lookup_col name r).
Qed.

Lemma names_assign_present name s cols s0 :
  lookup_col name cols = Some s0 ->
  List.map fst (assign_col name s cols) = List.map fst cols.
Proof. intros H. now rewrite names_assign, H. Qed.

Lemma names_take m (cols : list (string * series)) :
  List.map fst (List.map (fun c => (fst c, series_take m (snd c))) cols)
  = List.map fst cols.
Proof. rewrite List.map_map. reflexivity. Qed.

(** X3.  The cleaning keeps every column of the file, in the order of the
    file, and adds one: the decade column comes last, or replaces a
    column of that name the file already had. *)
Theorem clean_column_names (raw data : DataFrame) :
  clean raw = Ok data ->
  List.map fst (columns data)
  = match lookup_col "Decade" (columns raw) with
    | Some _ => List.map fst (columns raw)
    | None => (List.map fst (columns raw) ++ ["Decade"])%list
    end.
Proof.
  intros H. apply clean_shape in H.
  destruct H as (gross & votes & xs & year & tens & Hg & Hv & Hr & Hy & _ & ->).
  cbn [set_col take columns index].
  rewrite names_assign, lookup_take, !lookup_assign_ne by discriminate.
  rewrite names_take.
  assert (Hn : List.map fst
                 (assign_col "Released_Year" (to_numeric_coerce year)
                    (assign_col "Runtime"
                       (astype_float_ignore (SObj (runtime_text xs)))
                       (assign_col "No_of_Votes" (to_numeric_coerce votes)
                          (assign_col "Gross"
                             (astype_float_ignore (gross_text gross))
                             (columns raw)))))
               = List.map fst (columns raw)).
  { erewrite names_assign_present
      by (rewrite !lookup_assign_ne by discriminate; exact Hy).
    erewrite names_assign_present
      by (rewrite !lookup_assign_ne by discriminate; exact Hr).
    erewrite names_assign_present
      by (rewrite !lookup_assign_ne by discriminate; exact Hv).
    erewrite names_assign_present by exact Hg. reflexivity. }
  rewrite Hn. now destruct (lookup_col "Decade" (columns raw)).
Qed.

(** X2.  The cleaning cannot be applied to its own result once the
    runtime column has been converted: when every runtime of the file
    converts, the cleaned table has a float64 runtime column, and
    cleaning that table raises [AttributeError] at the [.str] of
    line 13. *)
Theorem clean_again_raises (raw data : DataFrame) (xs : list (option string)) :
  clean raw = Ok data ->
  lookup_col "Runtime" (columns raw) = Some (SObj xs) ->
  all_floats (runtime_text xs) <> None ->
  (exists fs, lookup_col "Runtime" (columns data) = Some (SFloat fs)) /\
  clean data = Err AttributeError.
Proof.
  intros H Hxs Hall. apply clean_shape in H.
  destruct H as (gross & votes & xs' & year & tens & Hg & Hv & Hr & Hy & _ & ->).
  assert (xs' = xs) by congruence. subst xs'.
  set (m := mask2 _ _ _).
  destruct (all_floats (runtime_text xs)) as [fs|] eqn:E; [|contradiction].
  assert (Lr : lookup_col "Runtime"
                 (columns
                    (set_col
                       (take m
                          (set_col
                             (set_col
                                (set_col
                                   (set_col raw "Gross"
                                      (astype_float_ignore (gross_text gross)))
                                   "No_of_Votes" (to_numeric_coerce votes))
                                "Runtime"
                                (astype_float_ignore (SObj (runtime_text xs))))
                             "Released_Year" (to_numeric_coerce year)))
                       "Decade" (mul tens 10)))
               = Some (SFloat (take_mask m fs))).
  { cbn [set_col take columns index].
    rewrite lookup_assign_ne by discriminate.
    rewrite lookup_take, lookup_assign_ne by discriminate.
    rewrite lookup_assign_eq. cbn [astype_float_ignore]. rewrite E. reflexivity. }
  split; [eauto|].
  apply (clean_numeric_runtime _
           (series_take m (astype_float_ignore (gross_text gross)))
           (series_take m (to_numeric_coerce votes))
           (SFloat (take_mask m fs))); [| |exact Lr|exact I].
  - cbn [set_col take columns index].
    rewrite lookup_assign_ne by discriminate.
    rewrite lookup_take, !lookup_assign_ne by discriminate.
    now rewrite lookup_assign_eq.
  - cbn [set_col take columns index].
    rewrite lookup_assign_ne by discriminate.
    rewrite lookup_take, !lookup_assign_ne by discriminate.
    now rewrite lookup_assign_eq.
Qed.

(** ** Column lengths and dtypes *)

Lemma length_all_floats xs fs :
  all_floats xs = Some fs -> List.length fs = List.length xs.
Proof.
  revert fs. induction xs as [|x xs IH]; simpl.
  - now intros fs [= <-].
  - intros fs. destruct (float_of_obj x); [|discriminate].
    destruct (all_floats xs) as [fs'|]; [|discriminate].
    intros [= <-]. simpl. now rewrite (IH fs').
Qed.

Lemma length_all_ints ns zs :
  all_ints ns = Some zs -> List.length zs = List.length ns.
Proof.
  revert zs. induction ns as [|[[z|f]|] ns IH]; simpl; try discriminate.
  - now intros zs [= <-].
  - intros zs. destruct (in_int64 z); [|discriminate].
    destruct (all_ints ns) as [zs'|]; [|discriminate].
    intros [= <-]. simpl. now rewrite (IH zs').
Qed.

Lemma length_astype s :
  List.length (cells (astype_float_ignore s)) = List.length (cells s).
Proof.
  destruct s as [xs|xs|xs]; simpl; rewrite ?List.length_map; auto.
  destruct (all_floats xs) as [fs|] eqn:E; simpl; rewrite !List.length_map; auto.
  now apply length_all_floats.
Qed.

Lemma length_to_numeric s :
  List.length (cells (to_numeric_coerce s)) = List.length (cells s).
Proof.
  destruct s as [xs|xs|xs]; simpl; auto.
  destruct (all_ints _) as [zs|] eqn:E; simpl; rewrite !List.length_map.
  - apply length_all_ints in E. now rewrite E, List.length_map.
  - reflexivity.
Qed.

Lemma length_gross_text s :
  List.length (cells (gross_text s)) = List.length (cells s).
Proof. destruct s; simpl; now rewrite ?List.length_map. Qed.

Lemma length_runtime_text xs :
  List.length (cells (SObj (runtime_text xs))) = List.length (cells (SObj xs)).
Proof. unfold runtime_text. simpl. now rewrite !List.length_map. Qed.

Lemma length_mul s k : List.length (cells (mul s k)) = List.length (cells s).
Proof. destruct s; simpl; now rewrite !List.length_map. Qed.

Lemma length_floordiv s d t :
  floordiv s d = Ok t -> List.length (cells t) = List.length (cells s).
Proof.
  destruct s as [xs|xs|xs]; simpl.
  - intros [= <-]. simpl. now rewrite !List.length_map.
  - intros [= <-]. simpl. now rewrite !List.length_map.
  - destruct (forallb is_missing xs); [now intros [= <-] | discriminate].
Qed.

Lemma well_formed_lookup df name s :
  well_formed df -> lookup_col name (columns df) = Some s ->
  List.length (cells s) = List.length (index df).
Proof.
  unfold well_formed. generalize (List.length (index df)) as n.
  intros n H. induction H as [|[n0 s0] r Hx Hr IH]; simpl; [discriminate|].
  destruct (String.eqb n0 name); [now intros [= <-] | exact IH].
Qed.

Lemma well_formed_set_col df name s :
  well_formed df -> List.length (cells s) = List.length (index df) ->
  well_formed (set_col df name s).
Proof.
  unfold well_formed, set_col. cbn [columns index].
  generalize (List.length (index df)) as n. intros n H Hs.
  induction H as [|[n0 s0] r Hx Hr IH]; simpl.
  - constructor; [exact Hs | constructor].
  - destruct (String.eqb n0 name); constructor; auto.
Qed.

Lemma well_formed_take m df :
  well_formed df -> (List.length m <= List.length (index df))%nat ->
  well_formed (take m df).
Proof.
  unfold well_formed, take. cbn [columns index]. intros H Hm.
  rewrite (length_take_mask m (index df) Hm).
  induction H as [|[n0 s0] r Hx Hr IH]; simpl; constructor; auto.
  simpl in *. rewrite cells_take, length_take_mask; [reflexivity | lia].
Qed.

Lemma clean_wf (raw data : DataFrame) :
  well_formed raw -> clean raw = Ok data -> well_formed data.
Proof.
  intros Hw H. apply clean_shape in H.
  destruct H as (gross & votes & xs & year & tens & Hg & Hv & Hr & Hy & Ht & ->).
  pose proof (well_formed_lookup _ _ _ Hw Hg) as Lg.
  pose proof (well_formed_lookup _ _ _ Hw Hv) as Lv.
  pose proof (well_formed_lookup _ _ _ Hw Hr) as Lr.
  pose proof (well_formed_lookup _ _ _ Hw Hy) as Ly.
  set (m := mask2 _ _ _) in *.
  assert (Hm : (List.length m <= List.length (index raw))%nat)
    by apply length_mask2.
  apply well_formed_set_col.
  - apply well_formed_take; [|exact Hm].
    repeat apply well_formed_set_col; auto; cbn [set_col index].
    + now rewrite length_astype, length_gross_text.
    + now rewrite length_to_numeric.
    + now rewrite length_astype, length_runtime_text.
    + now rewrite length_to_numeric.
  - rewrite length_mul, (length_floordiv _ _ _ Ht), cells_take.
    unfold take. cbn [set_col index].
    rewrite !length_take_mask; auto.
    rewrite length_to_numeric, Ly. exact Hm.
Qed.

Lemma length_take_mask_le {A} m (l : list A) :
  (List.length (take_mask m l) <= List.length l)%nat.
Proof.
  revert l. induction m as [|b m IH]; intros [|x l]; simpl; try lia.
  specialize (IH l). destruct b; simpl; lia.
Qed.

(** X4.  On a file read into columns of one length, the cleaned table
    again has every column, the new decade column included, as long as
    its index, and it has no more rows than the file. *)
Theorem clean_well_formed (raw data : DataFrame) :
  well_formed raw -> clean raw = Ok data ->
  well_formed data /\
  (List.length (index data) <= List.length (index raw))%nat /\
  forall name s, lookup_col name (columns data) = Some s ->
                 List.length (cells s) = List.length (index data).
Proof.
  intros Hw H. pose proof (clean_wf raw data Hw H) as Hd.
  split; [exact Hd|]. split.
  - apply clean_shape in H.
    destruct H as (gross & votes & xs & year & tens & _ & _ & _ & _ & _ & ->).
    cbn [set_col take index]. apply length_take_mask_le.
  - intros name s Hs. exact (well_formed_lookup _ _ _ Hd Hs).
Qed.




(** ** Numbers in text *)

























(** ** What [float()] refuses *)













(** ** The counts of [value_counts] *)

Lemma cell_neq_sym a b : cell_eqb a b = false -> cell_eqb b a = false.
Proof.
  intros H. destruct (cell_eqb b a) eqn:E; [|reflexivity].
  apply cell_eqb_sym in E. congruence.
Qed.

Lemma uniq_distinct l : distinct (uniq l).
Proof.
  unfold distinct. induction l as [|x l IH]; simpl; constructor.
  - now apply sorted_filter.
  - apply List.Forall_forall. intros y Hy. apply List.filter_In in Hy.
    destruct Hy as [_ Hy]. now apply negb_true_iff in Hy.
Qed.

Lemma insert_desc_other p l :
  StronglySorted other_key l -> Forall (other_key p) l ->
  StronglySorted other_key (insert_desc p l).
Proof.
  induction 1 as [|q l Hs IH Hf]; intros Hp; simpl.
  - constructor; constructor.
  - destruct (snd q <=? snd p)%nat.
    + constructor; [now constructor | exact Hp].
    + inversion Hp as [|? ? Hpq Hpl]; subst.
      constructor; [now apply IH|].
      apply List.Forall_forall. intros r Hr. apply In_insert_desc in Hr.
      destruct Hr as [->|Hr]; [now apply cell_neq_sym|].
      rewrite List.Forall_forall in Hf. now apply Hf.
Qed.

Lemma sort_desc_other l :
  StronglySorted other_key l -> StronglySorted other_key (sort_desc l).
Proof.
  induction 1 as [|p l Hs IH Hf]; simpl; [constructor|].
  apply insert_desc_other; [exact IH|].
  apply List.Forall_forall. intros q Hq. apply (proj1 (In_sort_desc q l)) in Hq.
  rewrite List.Forall_forall in Hf. now apply Hf.
Qed.

Lemma value_counts_other s : StronglySorted other_key (value_counts s).
Proof.
  unfold value_counts. apply sort_desc_other.
  generalize (uniq_distinct (List.filter notnull (cells s))).
  generalize (uniq (List.filter notnull (cells s))) as u.
  generalize (List.filter notnull (cells s)) as present.
  intros present u H. induction H as [|k u Hs IH Hf]; simpl; constructor; auto.
  apply List.Forall_forall. intros q Hq. apply List.in_map_iff in Hq.
  destruct Hq as (k' & <- & Hk'). rewrite List.Forall_forall in Hf.
  unfold other_key. simpl. now apply Hf.
Qed.

Lemma over_threshold_distinct gc :
  StronglySorted other_key gc -> distinct (over_threshold gc).
Proof.
  intros H. unfold distinct, over_threshold. apply sorted_map.
  now apply sorted_filter.
Qed.

Lemma count_key_cons k x r :
  count_key k (x :: r)
  = ((if cell_eqb k x then 1 else 0) + count_key k r)%nat.
Proof. unfold count_key. simpl. now destruct (cell_eqb k x). Qed.

Lemma sum_filter_split {A} (c : A -> nat) (f : A -> bool) l :
  List.list_sum (List.map c l)
  = (List.list_sum (List.map c (List.filter f l))
     + List.list_sum (List.map c (List.filter (fun x => negb (f x)) l)))%nat.
Proof.
  induction l as [|x l IH]; simpl; [reflexivity|].
  destruct (f x); simpl; lia.
Qed.

Lemma sum_equal_keys x r :
  (forall y, In y r -> isnull y = false) ->
  List.list_sum
    (List.map (fun k => count_key k r) (List.filter (cell_eqb x) (uniq r)))
  = count_key x r.
Proof.
  intros Hnn.
  pose proof (sorted_filter _ (cell_eqb x) _ (uniq_distinct r)) as Hd.
  destruct (List.filter (cell_eqb x) (uniq r)) as [|k1 [|k2 rest]] eqn:E; simpl.
  - destruct (count_key x r) eqn:C; [reflexivity|]. exfalso.
    destruct (count_key_pos x r ltac:(lia)) as (y & Hy & Hxy).
    destruct (uniq_covers y r Hy (Hnn y Hy)) as (k & Hk & Hky).
    assert (Hin : In k (List.filter (cell_eqb x) (uniq r))).
    { apply List.filter_In. split; [exact Hk|].
      eapply cell_eqb_trans; [exact Hxy | now apply cell_eqb_sym]. }
    now rewrite E in Hin.
  - assert (Hin : In k1 (List.filter (cell_eqb x) (uniq r))) by (rewrite E; now left).
    apply List.filter_In in Hin. destruct Hin as [_ Hx].
    rewrite (count_key_congr _ _ r Hx). lia.
  - exfalso.
    assert (H1 : In k1 (List.filter (cell_eqb x) (uniq r))) by (rewrite E; now left).
    assert (H2 : In k2 (List.filter (cell_eqb x) (uniq r)))
      by (rewrite E; right; now left).
    apply List.filter_In in H1, H2. destruct H1 as [_ H1], H2 as [_ H2].
    inversion Hd as [|? ? _ Hf]; subst. inversion Hf as [|? ? Hneq _]; subst.
    rewrite (cell_eqb_trans _ _ _ (cell_eqb_sym _ _ H1) H2) in Hneq. discriminate.
Qed.

(** Every row is counted under exactly one key. *)
Lemma sum_uniq l :
  (forall y, In y l -> isnull y = false) ->
  List.list_sum (List.map (fun k => count_key k l) (uniq l)) = List.length l.
Proof.
  induction l as [|x r IH]; intros Hnn; [reflexivity|].
  assert (Hr : forall y, In y r -> isnull y = false)
    by (intros y Hy; apply Hnn; now right).
  cbn [uniq List.map List.list_sum List.length].
  rewrite count_key_cons, (cell_eqb_refl x) by (apply Hnn; now left).
  assert (Hext : List.map (fun k => count_key k (x :: r))
                   (List.filter (fun y => negb (cell_eqb x y)) (uniq r))
                 = List.map (fun k => count_key k r)
                     (List.filter (fun y => negb (cell_eqb x y)) (uniq r))).
  { apply List.map_ext_in. intros k Hk. apply List.filter_In in Hk.
    destruct Hk as [_ Hk]. apply negb_true_iff in Hk.
    rewrite count_key_cons, (cell_neq_sym _ _ Hk). reflexivity. }
  rewrite Hext.
  pose proof (sum_filter_split (fun k => count_key k r) (cell_eqb x) (uniq r)) as Hs.
  rewrite (IH Hr), (sum_equal_keys x r Hr) in Hs.
  change (List.list_sum (?a :: ?l)) with (a + List.list_sum l)%nat. lia.
Qed.

Lemma sum_insert_desc p l :
  sum_counts (insert_desc p l) = (snd p + sum_counts l)%nat.
Proof.
  unfold sum_counts. induction l as [|q l IH]; simpl; [reflexivity|].
  destruct (snd q <=? snd p)%nat; simpl; [reflexivity|]. rewrite IH. lia.
Qed.

Lemma sum_sort_desc l : sum_counts (sort_desc l) = sum_counts l.
Proof.
  induction l as [|p l IH]; simpl; [reflexivity|].
  rewrite sum_insert_desc, IH. reflexivity.
Qed.

Lemma sum_value_counts s :
  sum_counts (value_counts s) = List.length (List.filter notnull (cells s)).
Proof.
  unfold value_counts. rewrite sum_sort_desc. unfold sum_counts.
  rewrite List.map_map. cbn [snd]. apply sum_uniq.
  intros y Hy. apply List.filter_In in Hy. destruct Hy as [_ Hy].
  now apply negb_true_iff in Hy.
Qed.

Lemma sum_over_threshold gc :
  (11 * List.length (over_threshold gc) <= sum_counts gc)%nat.
Proof.
  unfold over_threshold, sum_counts. rewrite List.length_map.
  induction gc as [|[k n] gc IH]; simpl; [lia|].
  destruct (10 <? n)%nat eqn:E; simpl; [|lia].
  apply Nat.ltb_lt in E. lia.
Qed.

Lemma length_filter_le {A} (f : A -> bool) l :
  (List.length (List.filter f l) <= List.length l)%nat.
Proof. induction l as [|x l IH]; simpl; [lia|]. destruct (f x); simpl; lia. Qed.

Lemma count_key_In k l :
  In k l -> isnull k = false -> (0 < count_key k l)%nat.
Proof.
  intros Hin Hnn. unfold count_key.
  assert (H : In k (List.filter (cell_eqb k) l)).
  { apply List.filter_In. split; [exact Hin | now apply cell_eqb_refl]. }
  destruct (List.filter (cell_eqb k) l); [destruct H | simpl; lia].
Qed.

Lemma cell_eqb_comm a b : cell_eqb a b = cell_eqb b a.
Proof.
  destruct (cell_eqb a b) eqn:E.
  - symmetry. now apply cell_eqb_sym.
  - symmetry. now apply cell_neq_sym.
Qed.

Lemma take_mask_pairs {A B} (f : A -> bool) (a : list A) (b : list B) :
  take_mask (List.map f a) b
  = List.map snd (List.filter (fun p => f (fst p)) (combine a b)).
Proof.
  revert b. induction a as [|x a IH]; intros [|y b]; simpl; auto.
  destruct (f x); simpl; now rewrite IH.
Qed.

Lemma take_mask_filter_fst {A B} (f : A -> bool) (a : list A) (b : list B) :
  take_mask (List.map f a) (combine a b)
  = List.filter (fun p => f (fst p)) (combine a b).
Proof.
  revert b. induction a as [|x a IH]; intros [|y b]; simpl; auto.
  destruct (f x); now rewrite IH.
Qed.

Lemma filter_filter_all {A} (f g : A -> bool) l :
  (forall x, In x l -> f x = true -> g x = true) ->
  List.filter f (List.filter g l) = List.filter f l.
Proof.
  induction l as [|x l IH]; intros H; simpl; [reflexivity|].
  assert (Hl : forall y, In y l -> f y = true -> g y = true)
    by (intros y Hy; apply H; now right).
  destruct (g x) eqn:G; simpl.
  - now rewrite (IH Hl).
  - destruct (f x) eqn:F; [|now apply IH].
    rewrite (H x) in G by (auto; now left). discriminate.
Qed.

Lemma filter_filter_none {A} (f g : A -> bool) l :
  (forall x, In x l -> f x = true -> g x = false) ->
  List.filter f (List.filter g l) = [].
Proof.
  induction l as [|x l IH]; intros H; simpl; [reflexivity|].
  assert (Hl : forall y, In y l -> f y = true -> g y = false)
    by (intros y Hy; apply H; now right).
  destruct (g x) eqn:G; simpl; [|now apply IH].
  destruct (f x) eqn:F; [|now apply IH].
  rewrite (H x) in G by (auto; now left). discriminate.
Qed.

Lemma length_filter_fst {A B} (f : A -> bool) (a : list A) (b : list B) :
  List.length a = List.length b ->
  List.length (List.filter (fun p => f (fst p)) (combine a b))
  = List.length (List.filter f a).
Proof.
  revert b. induction a as [|x a IH]; intros [|y b]; simpl; try discriminate; auto.
  intros [= H]. destruct (f x); simpl; now rewrite IH.
Qed.

(** ** Genres, the page and the chart *)

Section FurtherStartupFacts.

Variables render_treemap render_scatter render_parallel
  : DataFrame -> result Figure.

Local Abbreviation load :=
  (Submission.load render_treemap render_scatter render_parallel).
Local Abbreviation startup :=
  (Submission.startup render_treemap render_scatter render_parallel).

(** X9.  The genre counts of line 38 list every genre of the cleaned
    table once, never the missing value, with the number of rows that
    carry it, which is at least one; the counts are in decreasing order
    and add up to the number of rows that have a genre. *)
Theorem genre_counts_partition (raw : DataFrame) (G : Globals) :
  load raw = Ok G ->
  exists genre,
    lookup_col "Genre" (columns (data G)) = Some genre /\
    StronglySorted other_key (genre_counts G) /\
    StronglySorted by_count (genre_counts G) /\
    (forall k n, In (k, n) (genre_counts G) ->
                 isnull k = false /\ n = count_key k (cells genre) /\ (0 < n)%nat) /\
    (forall x, In x (cells genre) -> isnull x = false ->
               exists k n, In (k, n) (genre_counts G) /\ cell_eqb k x = true) /\
    sum_counts (genre_counts G) = List.length (List.filter notnull (cells genre)).
Proof.
  intros H. apply load_inv in H. destruct H as (genre & _ & Hg & _ & Hgc & _).
  exists genre. rewrite Hgc. split; [exact Hg|].
  split; [apply value_counts_other|].
  split; [unfold value_counts; apply sort_desc_sorted|].
  split; [|split; [|apply sum_value_counts]].
  - intros k n Hin. apply In_value_counts in Hin. destruct Hin as [Hk ->].
    apply uniq_incl in Hk. apply List.filter_In in Hk. destruct Hk as [Hk Hn].
    unfold notnull in Hn. apply negb_true_iff in Hn.
    split; [exact Hn|]. split; [reflexivity | now apply count_key_In].
  - intros x Hx Hn.
    destruct (uniq_covers x (List.filter notnull (cells genre))) as (k & Hk & Hkx);
      [|exact Hn|].
    { apply List.filter_In. split; [exact Hx|]. unfold notnull. now rewrite Hn. }
    exists k, (count_key k (cells genre)). split; [|exact Hkx].
    now apply In_value_counts.
Qed.

(** X10.  The options of the dropdown are pairwise different genres, and
    eleven times their number is at most the number of rows of the
    cleaned table. *)
Theorem dropdown_options_distinct_and_few (raw : DataFrame) (G : Globals) :
  load raw = Ok G ->
  exists genre,
    lookup_col "Genre" (columns (data G)) = Some genre /\
    distinct (selected_genres G) /\
    (11 * List.length (selected_genres G) <= List.length (cells genre))%nat.
Proof.
  intros H. apply load_inv in H. destruct H as (genre & _ & Hg & _ & _ & Hs & _).
  exists genre. rewrite Hs. split; [exact Hg|]. split.
  - apply over_threshold_distinct, value_counts_other.
  - pose proof (sum_over_threshold (value_counts genre)) as H1.
    rewrite sum_value_counts in H1.
    pose proof (length_filter_le notnull (cells genre)). lia.
Qed.

(** X11.  The value the dropdown starts with is a genre with the most
    rows: more than ten, and no value of the genre column has more. *)
Theorem default_genre_is_most_frequent (raw : DataFrame) (app : App) :
  startup raw = Ok app ->
  exists genre value opts,
    lookup_col "Genre" (columns (data (app_globals app))) = Some genre /\
    dropdowns (app_layout app) = [("genre-dropdown", opts, value)] /\
    (10 < count_key value (cells genre))%nat /\
    forall g, (count_key g (cells genre) <= count_key value (cells genre))%nat.
Proof.
  intros Hs. apply startup_inv in Hs. destruct Hs as (value & Hl & Hb & Hf).
  apply load_inv in Hl. destruct Hl as (genre & _ & Hg & _ & _ & Hsel & _).
  remember (app_globals app) as G eqn:HG.
  exists genre, value, (List.map (fun g => (g, g)) (selected_genres G)).
  split; [exact Hg|].
  unfold build in Hb. rewrite Hf, bind_Ok in Hb. injection Hb as Hb.
  split; [now rewrite <- Hb|].
  destruct (selected_genres G) as [|v rest] eqn:E; [discriminate|].
  injection Hf as ->.
  assert (Hin : In value (over_threshold (value_counts genre)))
    by (rewrite <- Hsel; now left).
  assert (Hv : (10 < count_key value (cells genre))%nat).
  { apply qualifying_iff. apply List.existsb_exists. exists value.
    split; [exact Hin|]. apply cell_eqb_refl. now apply (qualifying_notnull genre). }
  split; [exact Hv|]. intros g.
  destruct (Nat.le_gt_cases (count_key g (cells genre)) 10) as [Hle|Hgt]; [lia|].
  apply qualifying_iff in Hgt. apply List.existsb_exists in Hgt.
  destruct Hgt as (k & Hk & Hgk). rewrite (count_key_congr _ _ _ Hgk).
  pose proof (qualifying_sorted genre) as Hso. rewrite <- Hsel in Hso, Hk.
  destruct Hk as [->|Hk]; [lia|].
  inversion Hso as [|? ? _ Hfa]; subst. rewrite List.Forall_forall in Hfa.
  now apply Hfa.
Qed.

Lemma chart_rows (raw : DataFrame) (G : Globals) (c : cell) :
  load raw = Ok G ->
  exists genre decade rating fig tr,
    lookup_col "Genre" (columns (data G)) = Some genre /\
    lookup_col "Decade" (columns (data G)) = Some decade /\
    lookup_col "IMDB_Rating" (columns (data G)) = Some rating /\
    create_facet_chart (Some c) G = Ok (fig, G) /\
    fig_data fig = [tr] /\
    tr_x tr = (if (10 <? count_key c (cells genre))%nat
               then List.map snd
                      (List.filter (fun p => cell_eqb (fst p) c)
                         (combine (cells genre) (cells decade)))
               else []) /\
    tr_y tr = (if (10 <? count_key c (cells genre))%nat
               then List.map snd
                      (List.filter (fun p => cell_eqb (fst p) c)
                         (combine (cells genre) (cells rating)))
               else []).
Proof.
  intros Hl. apply load_inv in Hl.
  destruct Hl as (genre & Hc & Hg & Hcol & _ & Hsel & Hf & [ra Hra] & [ti Hti]).
  apply clean_inv in Hc. destruct Hc as (parsed & kept & _ & _ & Hd).
  apply add_decade_inv in Hd. destruct Hd as (year & tens & _ & _ & Hd).
  assert (Hde : lookup_col "Decade" (columns (data G)) = Some (mul tens 10)).
  { rewrite Hd. apply lookup_assign_eq. }
  set (m := isin genre (selected_genres G)) in *.
  assert (L : forall n s, lookup_col n (columns (data G)) = Some s ->
              lookup_col n (columns (data_filtered G)) = Some (series_take m s)).
  { intros n s Hn. rewrite Hf. unfold take. cbn [columns].
    now rewrite lookup_take, Hn. }
  exists genre, (mul tens 10), ra. eexists. eexists.
  split; [exact Hg|]. split; [exact Hde|]. split; [exact Hra|].
  split.
  { rewrite create_facet_chart_eq.
    rewrite (facet_chart_of_runs (Some c) G _ _ _ _
               (L _ _ Hg) (L _ _ Hde) (L _ _ Hra) (L _ _ Hti)).
    reflexivity. }
  split; [reflexivity|].
  assert (Hm : m = List.map (fun x => existsb (cell_eqb x) (selected_genres G))
                     (cells genre)).
  { unfold m, isin. apply List.map_ext. intros x. apply isin_eqb_notnull.
    rewrite Hsel. apply qualifying_notnull. }
  assert (Key : forall col : series,
            take_mask (eq_scalar (series_take m genre) (Some c))
              (cells (series_take m col))
            = if (10 <? count_key c (cells genre))%nat
              then List.map snd
                     (List.filter (fun p => cell_eqb (fst p) c)
                        (combine (cells genre) (cells col)))
              else []).
  { intros col. cbn [eq_scalar]. rewrite !cells_take, take_mask_pairs.
    rewrite <- take_mask_combine, Hm, take_mask_filter_fst.
    destruct (10 <? count_key c (cells genre))%nat eqn:Q.
    - apply Nat.ltb_lt in Q. f_equal. apply filter_filter_all.
      intros p _ Hp. rewrite Hsel. apply qualifying_iff.
      now rewrite (count_key_congr _ _ _ Hp).
    - apply Nat.ltb_ge in Q. rewrite filter_filter_none; [reflexivity|].
      intros p _ Hp.
      destruct (existsb (cell_eqb (fst p)) (selected_genres G)) eqn:E;
        [|reflexivity].
      rewrite Hsel in E. apply qualifying_iff in E.
      rewrite (count_key_congr _ _ _ Hp) in E. lia. }
  unfold facet_trace. cbn [tr_x tr_y]. split; apply Key.
Qed.

(** X12.  For a value with more than ten rows in the cleaned table the
    chart of the callback shows, in the order of the table, the decade
    and the rating of every row of the cleaned table whose genre equals
    the value; for every other value the chart is empty, also when the
    cleaned table has rows of that genre.  On a file read into columns of
    one length the chart of a value with more than ten rows has one bar
    for each of those rows. *)
Theorem chart_rows_of_genre (raw : DataFrame) (G : Globals) (c : cell) :
  load raw = Ok G ->
  exists genre decade rating fig tr,
    lookup_col "Genre" (columns (data G)) = Some genre /\
    lookup_col "Decade" (columns (data G)) = Some decade /\
    lookup_col "IMDB_Rating" (columns (data G)) = Some rating /\
    create_facet_chart (Some c) G = Ok (fig, G) /\
    fig_data fig = [tr] /\
    tr_x tr = (if (10 <? count_key c (cells genre))%nat
               then List.map snd
                      (List.filter (fun p => cell_eqb (fst p) c)
                         (combine (cells genre) (cells decade)))
               else []) /\
    tr_y tr = (if (10 <? count_key c (cells genre))%nat
               then List.map snd
                      (List.filter (fun p => cell_eqb (fst p) c)
                         (combine (cells genre) (cells rating)))
               else []) /\
    (well_formed raw -> (10 < count_key c (cells genre))%nat ->
     List.length (tr_x tr) = count_key c (cells genre) /\
     List.length (tr_y tr) = count_key c (cells genre)).
Proof.
  intros Hl.
  destruct (chart_rows raw G c Hl)
    as (genre & decade & rating & fig & tr & Hg & Hd & Hr & Hc & Hf & Hx & Hy).
  exists genre, decade, rating, fig, tr.
  repeat (split; [assumption|]). intros Hw Hq.
  apply load_inv in Hl. destruct Hl as (genre' & Hcl & _).
  pose proof (clean_wf _ _ Hw Hcl) as Hwd.
  pose proof (well_formed_lookup _ _ _ Hwd Hg) as Lg.
  pose proof (well_formed_lookup _ _ _ Hwd Hd) as Ld.
  pose proof (well_formed_lookup _ _ _ Hwd Hr) as Lr.
  apply Nat.ltb_lt in Hq. rewrite Hq in Hx, Hy. rewrite Hx, Hy.
  rewrite !List.length_map.
  rewrite !(length_filter_fst (fun x => cell_eqb x c)) by congruence.
  unfold count_key.
  rewrite (List.filter_ext (fun x => cell_eqb x c) (cell_eqb c))
    by (intros x; apply cell_eqb_comm).
  auto.
Qed.

(** X13.  Start-up returns an application as soon as the cleaning
    succeeds, the cleaned table has a genre column in which some value
    has more than ten rows, and the three static charts are drawn. *)
Theorem startup_succeeds (raw table : DataFrame) (genre : series) (g : cell)
  (t s p : Figure) :
  clean raw = Ok table ->
  lookup_col "Genre" (columns table) = Some genre ->
  (10 < count_key g (cells genre))%nat ->
  px_treemap render_treemap table = Ok t ->
  px_scatter render_scatter table = Ok s ->
  px_parallel_coordinates render_parallel table = Ok p ->
  exists app,
    startup raw = Ok app /\
    data (app_globals app) = table /\
    treemap (app_globals app) = static_layout t.
Proof.
  intros Hc Hg Hq Ht Hs Hp. unfold Submission.startup, Submission.load.
  rewrite Hc, bind_Ok.
  assert (E : get_col table "Genre" = Ok genre) by now apply get_col_ok.
  rewrite E, bind_Ok. cbv zeta. rewrite Ht, bind_Ok, Hs, bind_Ok, Hp, !bind_Ok.
  unfold build. cbn [selected_genres].
  apply qualifying_iff in Hq. apply List.existsb_exists in Hq.
  destruct Hq as (k & Hk & _).
  destruct (over_threshold (value_counts genre)) as [|v rest]; [destruct Hk|].
  cbn [first]. rewrite bind_Ok. eexists. split; [reflexivity|].
  split; reflexivity.
Qed.

(** X14.  The three static charts and every chart of the callback carry
    the same theme: transparent paper and plot background, white font,
    height 400 and the title at 0.4; the title size is 22 on the static
    charts and 18 on the chart of the callback, whatever plotly drew. *)
Theorem charts_share_the_theme (raw : DataFrame) (G : Globals) :
  load raw = Ok G ->
  (forall fig,
     In fig [treemap G; scatterplot G; parallel_coordinates G] ->
     themed 22 (fig_layout fig)) /\
  (forall g fig G',
     create_facet_chart g G = Ok (fig, G') -> themed 18 (fig_layout fig)).
Proof.
  intros Hl. split.
  - unfold Submission.load in Hl.
    inv_bind Hl. inv_bind Hl. inv_bind Hl. inv_bind Hl. inv_bind Hl.
    injection Hl as <-. cbn [treemap scatterplot parallel_coordinates].
    intros fig [<-|[<-|[<-|[]]]]; repeat split.
  - intros g fig G' H. apply create_facet_chart_inv in H. destruct H as [_ H].
    apply facet_chart_of_inv in H.
    destruct H as (? & ? & ? & ? & _ & _ & _ & _ & ->). repeat split.
Qed.

End FurtherStartupFacts.

(** ** The year column *)

Lemma all_ints_none o ns :
  In o ns ->
  match o with
  | Some (NInt z) => in_int64 z = false
  | _ => True
  end ->
  all_ints ns = None.
Proof.
  induction ns as [|x ns IH]; simpl; [tauto|].
  intros [->|Hin] Ho.
  - destruct o as [[z|f]|]; auto. now rewrite Ho.
  - destruct x as [[z|f]|]; auto. destruct (in_int64 z); [|reflexivity].
    now rewrite (IH Hin Ho).
Qed.

Lemma mask2_notnull idx ca cb :
  Forall (fun c => isnull c = false) (take_mask (mask2 idx ca cb) ca).
Proof.
  unfold mask2. revert ca cb.
  induction idx as [|i idx IH]; intros [|a ca] [|b cb]; simpl;
    try (constructor; fail).
  rewrite andb_true_r. destruct (notnull a) eqn:N; simpl; [|apply IH].
  destruct (notnull b); simpl; [|apply IH].
  constructor; [|apply IH]. unfold notnull in N. now apply negb_true_iff in N.
Qed.

(** X15.  One year that is missing or does not parse, such as a
    certificate in the year column, makes the year a float64 column: the
    cleaned table then has float64 year and decade columns, and no year
    left in it is NaN. *)
Theorem unparsed_year_gives_float_columns (raw data : DataFrame)
  (xs : list (option string)) (o : option string) :
  clean raw = Ok data ->
  lookup_col "Released_Year" (columns raw) = Some (SObj xs) ->
  In o xs -> coerce o = None ->
  exists ys ds,
    lookup_col "Released_Year" (columns data) = Some (SFloat ys) /\
    lookup_col "Decade" (columns data) = Some (SFloat ds) /\
    Forall (fun y => y <> FNaN) ys.
Proof.
  intros H Hy Hin Ho. apply clean_shape in H.
  destruct H as (gross & votes & rs & year & tens & Hg & Hv & Hr & Hy' & Ht & ->).
  assert (year = SObj xs) by congruence. subst year.
  assert (Hf : to_numeric_coerce (SObj xs)
               = SFloat (List.map float_or_nan (List.map coerce xs))).
  { cbn [to_numeric_coerce].
    rewrite (all_ints_none (coerce o) (List.map coerce xs)); [reflexivity| |].
    - now apply List.in_map.
    - now rewrite Ho. }
  rewrite Hf in *. set (fl := List.map float_or_nan (List.map coerce xs)) in *.
  set (m := mask2 _ _ _) in *.
  cbn [series_take floordiv] in Ht. injection Ht as <-.
  exists (take_mask m fl). eexists.
  cbn [set_col take columns index].
  rewrite lookup_assign_ne by discriminate.
  rewrite lookup_assign_eq, lookup_take, lookup_assign_eq.
  split; [reflexivity|]. split; [reflexivity|].
  pose proof (mask2_notnull (index raw) (cells (SFloat fl))
                (cells (astype_float_ignore (gross_text gross)))) as Hn.
  fold m in Hn. cbn [cells] in Hn. rewrite take_mask_map in Hn.
  rewrite List.Forall_forall in *. intros y Hyin Hnan. subst y.
  specialize (Hn (CFloat FNaN) (List.in_map CFloat _ _ Hyin)). discriminate.
Qed.

(** ** The further properties on the samples *)

Lemma clean_outcome_witness :
  lookup_col "Gross" (columns MoreSamples.numeric_runtime)
    = Some (read_text ["1,000"]) /\
  lookup_col "No_of_Votes" (columns MoreSamples.numeric_runtime)
    = Some (SInt [1000]) /\
  lookup_col "Runtime" (columns MoreSamples.numeric_runtime)
    = Some (SInt [142]) /\
  numeric (SInt [142]) /\
  clean MoreSamples.numeric_runtime = Err AttributeError.
Proof.
  split; [reflexivity|]. split; [reflexivity|]. split; [reflexivity|].
  split; [exact I|].
  destruct (clean_outcome MoreSamples.numeric_runtime) as [_ H].
  destruct (H (read_text ["1,000"]) eq_refl) as [_ H2].
  destruct (H2 (SInt [1000]) eq_refl) as (_ & H3 & _).
  exact (H3 (SInt [142]) eq_refl I).
Defined.

Lemma clean_again_raises_witness :
  clean Samples.four_films = Ok MoreSamples.four_cleaned /\
  lookup_col "Runtime" (columns Samples.four_films)
    = Some (SObj [Some "142 min"; Some "175 min"; Some "96 min"; None]) /\
  all_floats (runtime_text [Some "142 min"; Some "175 min"; Some "96 min"; None])
    <> None /\
  (exists fs, lookup_col "Runtime" (columns MoreSamples.four_cleaned)
              = Some (SFloat fs)) /\
  clean MoreSamples.four_cleaned = Err AttributeError.
Proof.
  assert (H1 : clean Samples.four_films = Ok MoreSamples.four_cleaned)
    by (vm_compute; reflexivity).
  assert (H2 : lookup_col "Runtime" (columns Samples.four_films)
               = Some (SObj [Some "142 min"; Some "175 min"; Some "96 min"; None]))
    by reflexivity.
  assert (H3 : all_floats
                 (runtime_text [Some "142 min"; Some "175 min"; Some "96 min"; None])
               <> None) by (vm_compute; discriminate).
  split; [exact H1|]. split; [exact H2|]. split; [exact H3|].
  exact (clean_again_raises _ _ _ H1 H2 H3).
Defined.

Lemma clean_column_names_witness :
  clean Samples.four_films = Ok MoreSamples.four_cleaned /\
  List.map fst (columns MoreSamples.four_cleaned)
  = [ "Series_Title"; "Released_Year"; "Runtime"; "Genre"; "IMDB_Rating";
      "Meta_score"; "Director"; "No_of_Votes"; "Gross"; "Decade" ].
Proof.
  assert (H1 : clean Samples.four_films = Ok MoreSamples.four_cleaned)
    by (vm_compute; reflexivity).
  split; [exact H1|].
  exact (clean_column_names _ _ H1).
Defined.

Lemma clean_well_formed_witness :
  well_formed Samples.four_films /\
  clean Samples.four_films = Ok MoreSamples.four_cleaned /\
  well_formed MoreSamples.four_cleaned.
Proof.
  assert (H1 : clean Samples.four_films = Ok MoreSamples.four_cleaned)
    by (vm_compute; reflexivity).
  assert (HW : well_formed Samples.four_films)
    by (unfold well_formed; repeat constructor).
  split; [exact HW|]. split; [exact H1|].
  exact (proj1 (clean_well_formed _ _ HW H1)).
Defined.





Lemma unparsed_year_gives_float_columns_witness :
  clean Samples.four_films = Ok MoreSamples.four_cleaned /\
  coerce (Some "PG") = None /\
  exists ys ds,
    lookup_col "Released_Year" (columns MoreSamples.four_cleaned)
      = Some (SFloat ys) /\
    lookup_col "Decade" (columns MoreSamples.four_cleaned) = Some (SFloat ds) /\
    Forall (fun y => y <> FNaN) ys.
Proof.
  assert (H1 : clean Samples.four_films = Ok MoreSamples.four_cleaned)
    by (vm_compute; reflexivity).
  split; [exact H1|]. split; [reflexivity|].
  refine (unparsed_year_gives_float_columns _ _
            [Some "1994"; Some "1972"; Some "2000"; Some "PG"] (Some "PG")
            H1 eq_refl _ eq_refl).
  simpl. tauto.
Defined.

Lemma genre_counts_partition_witness :
  load Samples.render_blank Samples.render_blank Samples.render_blank
    Samples.horror_films = Ok MoreSamples.horror_globals /\
  exists genre,
    lookup_col "Genre" (columns (data MoreSamples.horror_globals)) = Some genre /\
    StronglySorted other_key (genre_counts MoreSamples.horror_globals) /\
    StronglySorted by_count (genre_counts MoreSamples.horror_globals) /\
    (forall k n, In (k, n) (genre_counts MoreSamples.horror_globals) ->
                 isnull k = false /\ n = count_key k (cells genre) /\ (0 < n)%nat) /\
    (forall x, In x (cells genre) -> isnull x = false ->
               exists k n,
                 In (k, n) (genre_counts MoreSamples.horror_globals) /\
                 cell_eqb k x = true) /\
    sum_counts (genre_counts MoreSamples.horror_globals)
      = List.length (List.filter notnull (cells genre)).
Proof.
  assert (HL : load Samples.render_blank Samples.render_blank Samples.render_blank
                 Samples.horror_films = Ok MoreSamples.horror_globals)
    by (vm_compute; reflexivity).
  split; [exact HL|].
  exact (genre_counts_partition _ _ _ _ _ HL).
Defined.

Example horror_films_counts :
  genre_counts MoreSamples.horror_globals
  = [ (CStr "Horror", 11%nat); (CStr "Drama", 1%nat) ].
Proof. vm_compute; reflexivity. Qed.

Lemma dropdown_options_distinct_and_few_witness :
  load Samples.render_blank Samples.render_blank Samples.render_blank
    Samples.horror_films = Ok MoreSamples.horror_globals /\
  exists genre,
    lookup_col "Genre" (columns (data MoreSamples.horror_globals)) = Some genre /\
    distinct (selected_genres MoreSamples.horror_globals) /\
    (11 * List.length (selected_genres MoreSamples.horror_globals)
     <= List.length (cells genre))%nat.
Proof.
  assert (HL : load Samples.render_blank Samples.render_blank Samples.render_blank
                 Samples.horror_films = Ok MoreSamples.horror_globals)
    by (vm_compute; reflexivity).
  split; [exact HL|].
  exact (dropdown_options_distinct_and_few _ _ _ _ _ HL).
Defined.

Lemma default_genre_is_most_frequent_witness :
  startup Samples.render_blank Samples.render_blank Samples.render_blank
    Samples.horror_films = Ok MoreSamples.horror_app /\
  exists genre value opts,
    lookup_col "Genre" (columns (data (app_globals MoreSamples.horror_app)))
      = Some genre /\
    dropdowns (app_layout MoreSamples.horror_app)
      = [("genre-dropdown", opts, value)] /\
    (10 < count_key value (cells genre))%nat /\
    forall g, (count_key g (cells genre) <= count_key value (cells genre))%nat.
Proof.
  assert (HS : startup Samples.render_blank Samples.render_blank
                 Samples.render_blank Samples.horror_films
               = Ok MoreSamples.horror_app)
    by (vm_compute; reflexivity).
  split; [exact HS|].
  exact (default_genre_is_most_frequent _ _ _ _ _ HS).
Defined.

Lemma chart_rows_of_genre_witness :
  load Samples.render_blank Samples.render_blank Samples.render_blank
    Samples.horror_films = Ok MoreSamples.horror_globals /\
  well_formed Samples.horror_films /\
  exists genre fig tr,
    lookup_col "Genre" (columns (data MoreSamples.horror_globals)) = Some genre /\
    create_facet_chart (Some (CStr "Horror")) MoreSamples.horror_globals
      = Ok (fig, MoreSamples.horror_globals) /\
    fig_data fig = [tr] /\
    ((10 < count_key (CStr "Horror") (cells genre))%nat ->
     List.length (tr_x tr) = count_key (CStr "Horror") (cells genre) /\
     List.length (tr_y tr) = count_key (CStr "Horror") (cells genre)).
Proof.
  assert (HW : well_formed Samples.horror_films)
    by (unfold well_formed; repeat constructor).
  assert (HL : load Samples.render_blank Samples.render_blank Samples.render_blank
                 Samples.horror_films = Ok MoreSamples.horror_globals)
    by (vm_compute; reflexivity).
  split; [exact HL|]. split; [exact HW|].
  destruct (chart_rows_of_genre _ _ _ _ _ (CStr "Horror") HL)
    as (genre & decade & rating & fig & tr & Hg & _ & _ & Hc & Hf & _ & _ & Hn).
  exists genre, fig, tr. split; [exact Hg|]. split; [exact Hc|].
  split; [exact Hf|]. exact (Hn HW).
Defined.

Example drama_chart_is_empty_despite_a_row :
  count_key (CStr "Drama")
    (cells (default (SObj [])
              (lookup_col "Genre" (columns (data MoreSamples.horror_globals)))))
  = 1%nat /\
  (fun r => List.map tr_x (fig_data (fst r)))
    <$> create_facet_chart (Some (CStr "Drama")) MoreSamples.horror_globals
  = Ok [[]].
Proof. split; vm_compute; reflexivity. Qed.

Lemma startup_succeeds_witness :
  clean Samples.horror_films = Ok (Samples.cleaned Samples.horror_films) /\
  lookup_col "Genre" (columns (Samples.cleaned Samples.horror_films))
    = Some (read_text (List.repeat "Horror" 11 ++ ["Drama"])) /\
  (10 < count_key (CStr "Horror")
          (cells (read_text (List.repeat "Horror" 11 ++ ["Drama"]))))%nat /\
  exists app,
    startup Samples.render_blank Samples.render_blank Samples.render_blank
      Samples.horror_films = Ok app /\
    data (app_globals app) = Samples.cleaned Samples.horror_films /\
    treemap (app_globals app) = static_layout Samples.blank.
Proof.
  assert (H1 : clean Samples.horror_films = Ok (Samples.cleaned Samples.horror_films))
    by (vm_compute; reflexivity).
  assert (H2 : lookup_col "Genre" (columns (Samples.cleaned Samples.horror_films))
               = Some (read_text (List.repeat "Horror" 11 ++ ["Drama"])))
    by (vm_compute; reflexivity).
  assert (H3 : (10 < count_key (CStr "Horror")
                       (cells (read_text (List.repeat "Horror" 11 ++ ["Drama"]))))%nat)
    by (vm_compute; lia).
  split; [exact H1|]. split; [exact H2|]. split; [exact H3|].
  refine (startup_succeeds Samples.render_blank Samples.render_blank
            Samples.render_blank _ _ _ (CStr "Horror")
            Samples.blank Samples.blank Samples.blank H1 H2 H3 _ _ _);
    vm_compute; reflexivity.
Defined.

Lemma charts_share_the_theme_witness :
  load Samples.render_blank Samples.render_blank Samples.render_blank
    Samples.horror_films = Ok MoreSamples.horror_globals /\
  (forall fig,
     In fig [treemap MoreSamples.horror_globals;
             scatterplot MoreSamples.horror_globals;
             parallel_coordinates MoreSamples.horror_globals] ->
     themed 22 (fig_layout fig)) /\
  (forall g fig G',
     create_facet_chart g MoreSamples.horror_globals = Ok (fig, G') ->
     themed 18 (fig_layout fig)).
Proof.
  assert (HL : load Samples.render_blank Samples.render_blank Samples.render_blank
                 Samples.horror_films = Ok MoreSamples.horror_globals)
    by (vm_compute; reflexivity).
  split; [exact HL|].
  exact (charts_share_the_theme _ _ _ _ _ HL).
Defined.

(** ** A gross column that does not convert *)



